(** * dealer.supplier.database: the database suppliers of data-dealer

    A shallow embedding of [src/dealer/supplier/database.py] (the DynamoDB,
    MSSQL and Redshift suppliers) together with the part of the Python
    runtime the module leans on ([str], [Decimal], [str.split], [zip],
    [strftime], slicing), and the properties of the load strategies that
    the specification states about them. *)

From Stdlib Require Import ZArith NArith QArith Qround Qpower Lqa.
From Stdlib Require Import Ascii String List Lia.
From Corelib Require Import SpecFloat.
From stdpp Require Import base option list gmap strings.

Local Open Scope Z_scope.

(** ** Python runtime: decimal digits *)

Module Py.

(** The decimal digits of [n], most significant first: the loop of
    [int.__str__].  [fuel] bounds the number of digits. *)
Fixpoint digits_aux (fuel : nat) (n : N) (acc : list N) : list N :=
  match fuel with
  | O => acc
  | S k =>
      if (n <? 10)%N then n :: acc
      else digits_aux k (n / 10)%N ((n mod 10)%N :: acc)
  end.

Definition digits (n : N) : list N :=
  digits_aux (S (N.to_nat (N.log2 n))) n [].

(** The number a digit sequence denotes (as [int(...)] does). *)
Definition number_step (acc d : N) : N := (10 * acc + d)%N.

Definition number (ds : list N) : N := foldl number_step 0%N ds.

Definition digit_char (d : N) : ascii := ascii_of_N (48 + d).

Definition char_digit (c : ascii) : option N :=
  let n := N_of_ascii c in
  if ((48 <=? n) && (n <=? 57))%N then Some (n - 48)%N else None.

Definition is_digit (c : ascii) : bool :=
  match char_digit c with Some _ => true | None => false end.

(** [number] on characters; [None] when a character is not a digit. *)
Fixpoint chars_number (acc : N) (cs : list ascii) : option N :=
  match cs with
  | [] => Some acc
  | c :: cs' =>
      match char_digit c with
      | Some d => chars_number (10 * acc + d)%N cs'
      | None => None
      end
  end.

Definition nat_chars (n : N) : list ascii := map digit_char (digits n).

(** [str(n)] for an [int]. *)
Definition int_chars (n : Z) : list ascii :=
  if n <? 0 then "-"%char :: nat_chars (Z.abs_N n) else nat_chars (Z.abs_N n).

Definition str_int (n : Z) : string := string_of_list_ascii (int_chars n).

(** ** Python runtime: [float] and [float.__repr__]

    A Python [float] is an IEEE-754 binary64 number; [spec_float] gives its
    sign, mantissa and exponent.  [str(x)] is the shortest decimal string
    that reads back as [x] (the closest to [x] among the shortest). *)

Definition float := spec_float.


Definition pow10 (k : Z) : Q := Qpower (10 # 1) k.
Definition pow2 (k : Z) : Q := Qpower (2 # 1) k.

Definition Qlt_bool (x y : Q) : bool := negb (Qle_bool y x).

(** The exact value of the positive float [m * 2^e]. *)
Definition F2Q (m : positive) (e : Z) : Q := (inject_Z (Zpos m) * pow2 e)%Q.

(** The reals that round to [m * 2^e] (round-half-even) lie between the
    midpoints to its two neighbours; the midpoints themselves round to it
    when [m] is even.  Below a power of two the lower neighbour is half as
    far away. *)
Definition float_low (m : positive) (e : Z) : Q :=
  if (Zpos m =? 2 ^ 52) && (-1074 <? e)
  then (inject_Z (4 * Zpos m - 1) * pow2 (e - 2))%Q
  else (inject_Z (2 * Zpos m - 1) * pow2 (e - 1))%Q.

Definition float_high (m : positive) (e : Z) : Q :=
  (inject_Z (2 * Zpos m + 1) * pow2 (e - 1))%Q.

Definition rounds_to (m : positive) (e : Z) (x : Q) : bool :=
  if Z.even (Zpos m)
  then Qle_bool (float_low m e) x && Qle_bool x (float_high m e)
  else Qlt_bool (float_low m e) x && Qlt_bool x (float_high m e).

(** The decimal exponent of [v > 0]: the [k] with [10^(k-1) <= v < 10^k]. *)
Fixpoint decpt_up (fuel : nat) (v : Q) (k : Z) : Z :=
  match fuel with
  | O => k
  | S n => if Qlt_bool v (pow10 k) then k else decpt_up n v (k + 1)
  end.

Fixpoint decpt_down (fuel : nat) (v : Q) (k : Z) : Z :=
  match fuel with
  | O => k
  | S n => if Qle_bool (pow10 (k - 1)) v then k else decpt_down n v (k - 1)
  end.

Definition decpt (v : Q) : Z :=
  if Qle_bool 1%Q v then decpt_up 400 v 1 else decpt_down 400 v 0.

(** The [p]-digit decimals [n * 10^q] next to [v], when one of them rounds
    to the float: the closer one, the even one on a tie. *)
Definition candidate (m : positive) (e : Z) (q : Z) : option Z :=
  let v := F2Q m e in
  let x := (v / pow10 q)%Q in
  let lo := Qfloor x in
  let hi := lo + 1 in
  let ok n := rounds_to m e (inject_Z n * pow10 q)%Q in
  match ok lo, ok hi with
  | true, true =>
      match (x - inject_Z lo ?= inject_Z hi - x)%Q with
      | Lt => Some lo
      | Gt => Some hi
      | Eq => Some (if Z.even lo then lo else hi)
      end
  | true, false => Some lo
  | false, true => Some hi
  | false, false => None
  end.

(** Round-half-even of [v / 10^q], the 17-digit fallback. *)
Definition nearest (m : positive) (e : Z) (q : Z) : Z :=
  let x := (F2Q m e / pow10 q)%Q in
  let lo := Qfloor x in
  match (x - inject_Z lo ?= 1 # 2)%Q with
  | Lt => lo
  | Gt => lo + 1
  | Eq => if Z.even lo then lo else lo + 1
  end.

Fixpoint shortest_from (fuel : nat) (m : positive) (e : Z) (k : Z) (p : Z)
  : Z * Z :=
  match fuel with
  | O => (nearest m e (k - p), k - p)
  | S n =>
      match candidate m e (k - p) with
      | Some c => (c, k - p)
      | None => shortest_from n m e k (p + 1)
      end
  end.

(** Digits [n] and exponent [q] of the shortest decimal [n * 10^q] that
    reads back as [m * 2^e]: precisions 1 to 16 are tried, 17 always
    suffices. *)
Definition shortest (m : positive) (e : Z) : Z * Z :=
  shortest_from 16 m e (decpt (F2Q m e)) 1.

Fixpoint strip_zeros_rev (ds : list N) (q : Z) : list N * Z :=
  match ds with
  | 0%N :: (_ :: _) as ds' => strip_zeros_rev ds' (q + 1)
  | _ => (ds, q)
  end.

(** The digit string without trailing zeros, and the position of the
    decimal point relative to its start ([_Py_dg_dtoa]'s result). *)
Definition float_digits (m : positive) (e : Z) : list N * Z :=
  let '(n, q) := shortest m e in
  let '(rds, q') := strip_zeros_rev (rev (digits (Z.to_N n))) q in
  (rev rds, Z.of_nat (length rds) + q').

Definition zeros (n : Z) : list ascii := replicate (Z.to_nat n) "0"%char.

Definition sign_chars (s : bool) : list ascii :=
  if s then ["-"%char] else [].

(** Format code ['r'] with the [ADD_DOT_0] flag: positional when the
    decimal point is within [-4 < decpt <= 16], else exponent notation
    with at least two exponent digits. *)
Definition format_repr (ds : list N) (dp : Z) : list ascii :=
  let cs := map digit_char ds in
  let n := Z.of_nat (length ds) in
  if (-4 <? dp) && (dp <=? 16) then
    if dp <=? 0 then "0"%char :: "."%char :: zeros (- dp) ++ cs
    else if n <=? dp then cs ++ zeros (dp - n) ++ ["."%char; "0"%char]
    else take (Z.to_nat dp) cs ++ "."%char :: drop (Z.to_nat dp) cs
  else
    let x := dp - 1 in
    let xs := nat_chars (Z.abs_N x) in
    take 1 cs ++ (if 1 <? n then "."%char :: drop 1 cs else [])
      ++ "e"%char :: (if x <? 0 then "-"%char else "+"%char)
      :: (if (Z.abs x <? 10) then "0"%char :: xs else xs).

Definition float_chars (f : float) : list ascii :=
  match f with
  | S754_nan => list_ascii_of_string "nan"
  | S754_infinity s => sign_chars s ++ list_ascii_of_string "inf"
  | S754_zero s => sign_chars s ++ list_ascii_of_string "0.0"
  | S754_finite s m e =>
      let '(ds, dp) := float_digits m e in sign_chars s ++ format_repr ds dp
  end.

(** [str(x)] for a [float]. *)
Definition str_float (f : float) : string :=
  string_of_list_ascii (float_chars f).

(** ** Python runtime: [decimal.Decimal]

    A [Decimal] is a sign, a coefficient and an exponent, or a special
    value.  The constructor reads the literal
    [sign? (digits? ('.' digits?)?) ('e' sign? digits)?], at least one digit
    in the mantissa, or [inf], [infinity], [nan] in any case. *)

Inductive Decimal : Type :=
  | DFinite (sign : bool) (coeff : N) (exp : Z)
  | DInfinity (sign : bool)
  | DNaN (sign : bool).


Definition lower (c : ascii) : ascii :=
  let n := N_of_ascii c in
  if ((65 <=? n) && (n <=? 90))%N then ascii_of_N (n + 32) else c.

Definition split_sign (cs : list ascii) : bool * list ascii :=
  match cs with
  | c :: r =>
      if bool_decide (c = "-"%char) then (true, r)
      else if bool_decide (c = "+"%char) then (false, r)
      else (false, cs)
  | [] => (false, [])
  end.

Fixpoint span_digits (cs : list ascii) : list ascii * list ascii :=
  match cs with
  | c :: r =>
      if is_digit c then let '(ds, rest) := span_digits r in (c :: ds, rest)
      else ([], cs)
  | [] => ([], [])
  end.

Definition parse_exponent (cs : list ascii) : option Z :=
  let '(s, r) := split_sign cs in
  match r with
  | [] => None
  | _ :: _ =>
      match chars_number 0 r with
      | Some n => Some (if s then - Z.of_N n else Z.of_N n)
      | None => None
      end
  end.

Definition chars_eqb (cs : list ascii) (s : string) : bool :=
  bool_decide (cs = list_ascii_of_string s).

Definition Decimal_of_chars (cs : list ascii) : option Decimal :=
  let '(s, body) := split_sign cs in
  let lc := map lower body in
  if chars_eqb lc "inf" || chars_eqb lc "infinity" then Some (DInfinity s)
  else if chars_eqb lc "nan" then Some (DNaN s)
  else
    let '(ip, r1) := span_digits body in
    let '(fp, r2) :=
      match r1 with
      | c :: r => if bool_decide (c = "."%char) then span_digits r
                  else ([], r1)
      | [] => ([], [])
      end in
    match ip ++ fp with
    | [] => None
    | _ :: _ =>
        let ex :=
          match r2 with
          | [] => Some 0
          | c :: r => if bool_decide (lower c = "e"%char)
                      then parse_exponent r else None
          end in
        match ex, chars_number 0 (ip ++ fp) with
        | Some x, Some c => Some (DFinite s c (x - Z.of_nat (length fp)))
        | _, _ => None
        end
    end.

(** [Decimal(s)]; [None] stands for [decimal.InvalidOperation]. *)
Definition Decimal_of_str (s : string) : option Decimal :=
  Decimal_of_chars (list_ascii_of_string s).

(** ** Python runtime: [datetime.strftime]

    The fields of a [pandas.Timestamp] / [datetime]; [to_pydatetime] drops
    what is below the second for the format used here.  [%m %d %H %M %S]
    are zero-padded to two digits, [%Y] is the year in decimal. *)

Record Timestamp : Type := mkTimestamp {
  year : N; month : N; day : N; hour : N; minute : N; second : N
}.


Definition pad2 (n : N) : list ascii :=
  if (n <? 10)%N then "0"%char :: nat_chars n else nat_chars n.

(** [t.strftime('%Y-%m-%d %H:%M:%S')] *)
Definition strftime (t : Timestamp) : string :=
  string_of_list_ascii
    (nat_chars (year t) ++ "-"%char :: pad2 (month t) ++ "-"%char ::
     pad2 (day t) ++ " "%char :: pad2 (hour t) ++ ":"%char ::
     pad2 (minute t) ++ ":"%char :: pad2 (second t)).

(** ** Python runtime: [str.split], [str.join], slices *)

(** [s.split(sep)] for a one-character separator: never empty. *)
Fixpoint split_chars (sep : ascii) (cur : list ascii) (cs : list ascii)
  : list (list ascii) :=
  match cs with
  | [] => [rev cur]
  | c :: r =>
      if bool_decide (c = sep) then rev cur :: split_chars sep [] r
      else split_chars sep (c :: cur) r
  end.

Definition split (sep : ascii) (s : string) : list string :=
  map string_of_list_ascii (split_chars sep [] (list_ascii_of_string s)).

(** [sep.join(l)] *)
Fixpoint join (sep : string) (l : list string) : string :=
  match l with
  | [] => EmptyString
  | [x] => x
  | x :: r => x +:+ sep +:+ join sep r
  end.

(** [l[:n]]: the first [n] elements, all but the last [-n] when [n < 0]. *)
Definition slice_to {A} (n : Z) (l : list A) : list A :=
  if 0 <=? n then take (Z.to_nat n) l
  else take (length l - Z.to_nat (- n)) l.

(** [string.ascii_lowercase] *)
Definition ascii_lowercase : list ascii :=
  list_ascii_of_string "abcdefghijklmnopqrstuvwxyz".

(** [sys.maxsize] on a 64-bit build *)
Definition maxsize : Z := 2 ^ 63 - 1.

End Py.

(** ** Values, records and data frames *)

(** The scalar kinds a cell can hold: [None], [int], [float],
    [decimal.Decimal], [str] and [pandas.Timestamp]. *)
Inductive value : Type :=
  | VNone
  | VInt (n : Z)
  | VFloat (f : Py.float)
  | VDecimal (d : Py.Decimal)
  | VStr (s : string)
  | VTimestamp (t : Py.Timestamp).

(** A record is a Python [dict] from column name to value. *)
Abbreviation record := (gmap string value).

(** [dict(pairs)]: a later pair overrides an earlier one with the same key. *)
Definition dict_of_pairs (l : list (string * value)) : record :=
  foldl (fun m p => <[p.1 := p.2]> m) ∅ l.

(** The part of [pandas.DataFrame] the module uses: the columns in order,
    each with its [dtype.str], and the rows. *)
Record DataFrame : Type := mkDataFrame {
  df_columns : list (string * string);
  df_rows : list (list value)
}.

Definition df_names (df : DataFrame) : list string := (df_columns df).*1.
Definition df_dtypes (df : DataFrame) : list string := (df_columns df).*2.

(** Every row has one cell per column and no column name occurs twice. *)
Definition df_wf (df : DataFrame) : Prop :=
  NoDup (df_names df) /\
  Forall (fun r => length r = length (df_columns df)) (df_rows df).

(** [data.to_dict(orient='records')] *)
Definition to_dict (df : DataFrame) : list record :=
  map (fun r => dict_of_pairs (zip (df_names df) r)) (df_rows df).

(** [data[name] = v] for a scalar [v]: the column is overwritten where it
    exists and appended otherwise; [dt] is the resulting [dtype.str]. *)
Definition setitem (name : string) (dt : string) (v : value) (df : DataFrame)
  : DataFrame :=
  if bool_decide (name ∈ df_names df) then
    let upd {A} (new : A) :=
      zip_with (fun c (old : A) =>
                  if bool_decide (c = name) then new else old) (df_names df) in
    {| df_columns := zip (df_names df) (upd dt (df_dtypes df));
       df_rows := map (upd v) (df_rows df) |}
  else
    {| df_columns := df_columns df ++ [(name, dt)];
       df_rows := map (fun r => r ++ [v]) (df_rows df) |}.

(** [data[names]]: for each name in turn, the columns that carry it. *)
Definition getitem (names : list string) (df : DataFrame) : DataFrame :=
  let pick {A} (l : list A) : list A :=
    mjoin (map (fun n =>
      omap (fun '(c, x) => if bool_decide (c = n) then Some x else None)
           (zip (df_names df) l)) names) in
  {| df_columns := pick (df_columns df);
     df_rows := map pick (df_rows df) |}.

(** ** Exceptions, events and the effect monad *)

Inductive exn : Type :=
  | EnvironmentError
  | NotImplementedError
  | ValueError
  | AttributeError
  | KeyError (k : string)
  | IndexError
  | InvalidOperation
  | Exception
  | BackendError (message : option string) (text : string).

(** [ex.message]: only some exceptions carry the attribute. *)
Definition message_of (ex : exn) : option string :=
  match ex with
  | BackendError m _ => m
  | _ => None
  end.

(** [str(ex)] *)
Definition str_exn (ex : exn) : string :=
  match ex with
  | BackendError _ t => t
  | KeyError k => "'" +:+ k +:+ "'"
  | _ => EmptyString
  end.

Inductive level : Type := DEBUG | INFO | ERROR | CRITICAL.

(** A page of a DynamoDB scan. *)
Record response : Type := mkResponse {
  Items : list record;
  LastEvaluatedKey : option record
}.

(** What the module does to the outside world, in order. *)
Inductive event : Type :=
  | Log (l : level) (msg : string)
  | Print (msg : string)
  | Table (name : string)
  | Scan (start : option record) (projection : option string)
  | PutItem (item : record)
  | UpdateItem (key : record) (update_expression : string) (eav : record)
  | OpenFile (path : string)
  | Connect (dbase : string)
  | ReadSql (query : string)
  | Execute (query : string)
  | ExecuteMany (query : string) (items : list (list value))
  | Commit
  | Exit.

(** The events that reach a store over the network. *)
Definition is_network (ev : event) : bool :=
  match ev with
  | Scan _ _ | PutItem _ | UpdateItem _ _ _ | Connect _ | ReadSql _
  | Execute _ | ExecuteMany _ _ | Commit => true
  | _ => false
  end.

(** The collaborators: each answers a call given everything that happened
    before it, with a result or an exception. *)
Record backend : Type := mkBackend {
  bk_scan : list event -> option record -> option string -> exn + response;
  bk_put_item : list event -> record -> exn + unit;
  bk_update_item : list event -> record -> string -> record -> exn + unit;
  bk_open_file : list event -> string -> exn + string;
  bk_connect : list event -> string -> exn + unit;
  bk_read_sql : list event -> string -> exn + DataFrame;
  bk_execute : list event -> string -> exn + unit;
  bk_executemany : list event -> string -> list (list value) -> exn + unit;
  bk_commit : list event -> exn + unit;
  bk_now : list event -> Py.Timestamp
}.

Inductive outcome (A : Type) : Type :=
  | Ret (a : A)
  | Raise (ex : exn)
  | Timeout.
Arguments Ret {A} a.
Arguments Raise {A} ex.
Arguments Timeout {A}.

(** A computation maps the history so far to its outcome and the history
    extended by its own events. *)
Definition M (A : Type) : Type := list event -> outcome A * list event.

Definition ret {A} (a : A) : M A := fun h => (Ret a, h).
Definition raise {A} (ex : exn) : M A := fun h => (Raise ex, h).
Definition timeout {A} : M A := fun h => (Timeout, h).

Definition bind {A B} (m : M A) (f : A -> M B) : M B :=
  fun h =>
    match m h with
    | (Ret a, h') => f a h'
    | (Raise ex, h') => (Raise ex, h')
    | (Timeout, h') => (Timeout, h')
    end.

Notation "'let*' x ':=' m 'in' k" := (bind m (fun x => k))
  (at level 10, x name, m at level 100, k at level 200).
Notation "m ';;' k" := (bind m (fun _ => k))
  (at level 100, k at level 200, right associativity).

Definition emit (ev : event) : M unit := fun h => (Ret tt, h ++ [ev]).

Definition log (l : level) (msg : string) : M unit := emit (Log l msg).

(** A call to a collaborator: it is recorded, then it answers. *)
Definition call {A} (ev : event) (answer : list event -> exn + A) : M A :=
  fun h =>
    match answer h with
    | inl ex => (Raise ex, h ++ [ev])
    | inr a => (Ret a, h ++ [ev])
    end.

(** A pure step that may raise. *)
Definition lift {A} (r : exn + A) : M A :=
  match r with
  | inl ex => raise ex
  | inr a => ret a
  end.

(** [try: m except Exception as ex: handler ex] *)
Definition try_except {A} (m : M A) (handler : exn -> M A) : M A :=
  fun h =>
    match m h with
    | (Raise ex, h') => handler ex h'
    | r => r
    end.

(** [with ctx: m]: the context is left on every path out of [m]. *)
Definition with_ {A} (m : M A) : M A :=
  fun h => let '(r, h') := m h in (r, h' ++ [Exit]).

(** Modelled from the spec: [dealer.process.log_method] is not part of the
    sources at hand; the specification describes it as a start/stop pair of
    messages bracketing the operation. *)
Definition log_method {A} (start stop : string) (m : M A) : M A :=
  log INFO start ;; let* r := m in log INFO stop ;; ret r.

(** [for x in l: body x] threading the loop state [s]. *)
Fixpoint for_ {A S} (l : list A) (s : S) (body : A -> S -> M S) : M S :=
  match l with
  | [] => ret s
  | x :: l' => let* s' := body x s in for_ l' s' body
  end.

(** A comprehension whose element expression may raise. *)
Fixpoint mapM {A B} (f : A -> exn + B) (l : list A) : exn + list B :=
  match l with
  | [] => inr []
  | x :: l' =>
      match f x with
      | inl ex => inl ex
      | inr y =>
          match mapM f l' with
          | inl ex => inl ex
          | inr ys => inr (y :: ys)
          end
      end
  end.

(** [**kwargs]: the options a call may carry. *)
Record kwargs : Type := mkKwargs {
  kw_query : option string;
  kw_query_type : option string;
  kw_query_file : option string;
  kw_limit : option Z;
  kw_table : option string;
  kw_key : option string;
  kw_expression : option string
}.

Definition no_kwargs : kwargs := mkKwargs None None None None None None None.

(** Truth value of [kwargs.get(name)] for a string option. *)
Definition truthy (o : option string) : bool :=
  match o with
  | Some s => negb (bool_decide (s = EmptyString))
  | None => false
  end.

Definition truthy_int (o : option Z) : bool :=
  match o with
  | Some n => negb (n =? 0)
  | None => false
  end.

(** [s] between double quotes, as it appears inside a message. *)
Definition quoted (s : string) : string :=
  String "034" (s +:+ String "034" EmptyString).

Definition str_len {A} (l : list A) : string :=
  Py.str_int (Z.of_nat (length l)).


(** ** class Dynamo *)

Module Dynamo.
Section Dynamo.

Variable B : backend.

(** [self.table = self.sql.Table(table)]: a handle, no request is sent. *)
Definition connect (table : string) : M unit := emit (Table table).

(** The [while 'LastEvaluatedKey' in resp] loop of [read]; [fuel] bounds
    the number of further pages requested. *)
Fixpoint scan_loop (fuel : nat) (params : option string) (limit : option Z)
    (resp : response) (items : list record) : M (list record) :=
  match LastEvaluatedKey resp with
  | None => ret items
  | Some k =>
      if Z.of_nat (length items) >? default Py.maxsize limit then
        log CRITICAL "Stopping read iteration" ;; ret items
      else
        match fuel with
        | O => timeout
        | S n =>
            let* resp' := call (Scan (Some k) params)
                               (fun h => bk_scan B h (Some k) params) in
            scan_loop n params limit resp' (items ++ Items resp')
        end
  end.

(** [read] returns the frame built from [items]; the model returns the
    records themselves. *)
Definition read (fuel : nat) (table : string) (kw : kwargs)
  : M (list record) :=
  log_method "Starting read from DynamoDB" "DynamoDB read complete"
    (connect table ;;
     let query := kw_query kw in
     let query_type := kw_query_type kw in
     let params := if truthy query then query else None in
     let* items :=
       if negb (truthy query_type) then
         let* resp := call (Scan None params)
                           (fun h => bk_scan B h None params) in
         scan_loop fuel params (kw_limit kw) resp (Items resp)
       else
         log ERROR "DynamoDB query currently not implemented" ;;
         raise NotImplementedError in
     let items :=
       if truthy_int (kw_limit kw)
       then Py.slice_to (default 0 (kw_limit kw)) items else items in
     log INFO ("Dynamo " +:+ (if truthy query_type then "query" else "scan")
               +:+ " produced " +:+ str_len items +:+ " results from "
               +:+ table) ;;
     ret items).

(** The branch of [_encode] for one value. *)
Definition encode_value (v : value) : exn + value :=
  match v with
  | VFloat f =>
      match Py.Decimal_of_str (Py.str_float f) with
      | Some d => inr (VDecimal d)
      | None => inl InvalidOperation
      end
  | VInt n =>
      match Py.Decimal_of_str (Py.str_int n) with
      | Some d => inr (VDecimal d)
      | None => inl InvalidOperation
      end
  | VTimestamp t => inr (VStr (Py.strftime t))
  | _ => inr v
  end.

(** [_encode]: the loop over [item.items()] updating [item] in place. *)
Definition _encode (item : record) : exn + record :=
  map_fold
    (fun k v acc =>
       match acc with
       | inl ex => inl ex
       | inr it =>
           match encode_value v with
           | inl ex => inl ex
           | inr v' => inr (<[k := v']> it)
           end
       end)
    (inr item) item.

Definition _merge (data : DataFrame) (table : string) : M unit :=
  log_method ("Starting " +:+ quoted "merge" +:+ " write to DynamoDB")
             "DynamoDB merge complete"
    (let items := to_dict data in
     let* items := lift (mapM _encode items) in
     with_
       (for_ items tt (fun item _ =>
          try_except
            (call (PutItem item) (fun h => bk_put_item B h item))
            (fun ex =>
               match message_of ex with
               | Some msg => emit (Print msg) ;; raise Exception
               | None => raise AttributeError
               end))) ;;
     log INFO ("Wrote " +:+ str_len items +:+ " records to DynamoDB table: "
               +:+ table)).

(** [placeholders]: [[':' + l for l in ascii_lowercase]] *)
Definition placeholders : list string :=
  map (fun l => String ":" (String l EmptyString)) Py.ascii_lowercase.

(** [expression = [exp.split('=') for exp in expression.split(',')]] *)
Definition parse_expression (expression : string) : list (list string) :=
  map (Py.split "=") (Py.split "," expression).

Definition ue_format (expression : list (list string))
  : list (string * string) :=
  zip (map (fun exp => hd EmptyString exp) expression) placeholders.

(** [exp[1]] raises [IndexError] for a pair without [=]. *)
Definition eav_format (expression : list (list string))
  : exn + list (string * string) :=
  match mapM (fun exp => match exp !! 1%nat with
                         | Some x => inr x
                         | None => inl IndexError
                         end) expression with
  | inl ex => inl ex
  | inr srcs => inr (zip srcs placeholders)
  end.

Definition ue (expression : list (list string)) : list string :=
  map (fun z => z.1 +:+ " = " +:+ z.2) (ue_format expression).

(** [item[k]] *)
Definition getkey (item : record) (k : string) : exn + value :=
  match item !! k with
  | Some v => inr v
  | None => inl (KeyError k)
  end.

(** [{k: item[k] for k in key}] *)
Definition key_of (item : record) (key : list string) : exn + record :=
  match mapM (fun k => match getkey item k with
                       | inl ex => inl ex
                       | inr v => inr (k, v)
                       end) key with
  | inl ex => inl ex
  | inr ps => inr (dict_of_pairs ps)
  end.

(** [{z[1]: item[z[0]] for z in eav_format}] over what the iterator
    [eav_format] still holds. *)
Definition eav_of (item : record) (it : list (string * string))
  : exn + record :=
  match mapM (fun z => match getkey item z.1 with
                       | inl ex => inl ex
                       | inr v => inr (z.2, v)
                       end) it with
  | inl ex => inl ex
  | inr ps => inr (dict_of_pairs ps)
  end.

(** [_update]: [zip] gives an iterator, so the loop state is what is left
    of [eav_format]; the comprehension of the first record drains it. *)
Definition _update (data : DataFrame) (table : string)
    (key expression : option string) : M unit :=
  log_method "Starting update to DynamoDB" "DynamoDB update complete"
    (let items := to_dict data in
     let* items := lift (mapM _encode items) in
     let* key := match key with
                 | Some k => ret (Py.split "," k)
                 | None => raise AttributeError
                 end in
     let* expression := match expression with
                        | Some e => ret (parse_expression e)
                        | None => raise AttributeError
                        end in
     let* eav := lift (eav_format expression) in
     let ue := ue expression in
     for_ items eav (fun item it =>
       let* k := lift (key_of item key) in
       let* vals := lift (eav_of item it) in
       call (UpdateItem k ("set " +:+ Py.join "," ue) vals)
            (fun h => bk_update_item B h k ("set " +:+ Py.join "," ue) vals) ;;
       ret []) ;;
     log INFO ("Updated " +:+ str_len items +:+ " records in DynamoDB table: "
               +:+ table)).

Definition write (data : DataFrame) (table : string) (load_type : string)
    (kw : kwargs) : M unit :=
  connect table ;;
  if bool_decide (load_type = "merge") then
    _merge data table
  else if bool_decide (load_type = "overwrite") then
    log ERROR "Overwrite method currently not implemented" ;;
    raise NotImplementedError
  else if bool_decide (load_type = "update") then
    (if negb (truthy (kw_expression kw)) && negb (truthy (kw_key kw)) then
       log ERROR "Pleae provide a --key to update on and an --expression for columns to update" ;;
       raise EnvironmentError
     else ret tt) ;;
    _update data table (kw_key kw) (kw_expression kw)
  else
    log CRITICAL ("Load type " +:+ load_type
                  +:+ " is not supported. Current types of load: merge").

End Dynamo.
End Dynamo.

(** ** class Mssql *)

Module Mssql.
Section Mssql.

Variable B : backend.

Definition columns (data : DataFrame) : list string := df_names data.

Definition connect (dbase : string) : M unit :=
  call (Connect dbase) (fun h => bk_connect B h dbase).

Definition get_option (dtype : string) : string :=
  if bool_decide ("i"%char ∈ list_ascii_of_string dtype)
     || bool_decide ("f"%char ∈ list_ascii_of_string dtype)
  then "%d" else "%s".

Definition options (data : DataFrame) : list string :=
  map get_option (df_dtypes data).

Definition read (dbase : string) (kw : kwargs) : M DataFrame :=
  log_method "Starting read from MSSQL database" "MSSQL read complete"
    (let* query :=
       if truthy (kw_query kw) then ret (default EmptyString (kw_query kw))
       else if truthy (kw_query_file kw) then
         let f := default EmptyString (kw_query_file kw) in
         call (OpenFile f) (fun h => bk_open_file B h f)
       else
         log ERROR "Need a query for database table" ;;
         raise EnvironmentError in
     connect dbase ;;
     with_
       (let* data := call (ReadSql query)
                          (fun h => bk_read_sql B h query) in
        log INFO ("MSSQL query produced " +:+ str_len (df_rows data)
                  +:+ " results") ;;
        ret data)).

(** [_insert] assigns a column of [data]: the frame it leaves behind is
    returned. *)
Definition _insert (data : DataFrame) (table : string) : M DataFrame :=
  fun h =>
    (let data :=
       setitem "insert_timestamp" "|O" (VStr (Py.strftime (bk_now B h))) data in
     let query :=
       "INSERT INTO " +:+ table +:+ " (" +:+ Py.join "," (columns data)
       +:+ ") VALUES (" +:+ Py.join "," (options data) +:+ ")" in
     let items := df_rows (getitem (columns data) data) in
     log DEBUG ("Executing SQL Query: " +:+ query) ;;
     try_except
       (call (ExecuteMany query items)
             (fun h => bk_executemany B h query items) ;;
        log INFO ("Wrote " +:+ str_len items +:+ " records to MSSQL table: "
                  +:+ table))
       (fun ex => log ERROR ("Error writing to table: " +:+ str_exn ex)) ;;
     ret data) h.

Definition _append (data : DataFrame) (table : string) : M DataFrame :=
  log_method ("Starting " +:+ quoted "append" +:+ " write to MSSQL")
             "MSSQL append complete"
    (_insert data table).

Definition _merge (data : DataFrame) (table : string) : M DataFrame :=
  raise NotImplementedError.

Definition _truncate (table : string) : M unit :=
  try_except
    (call (Execute ("TRUNCATE TABLE " +:+ table))
          (fun h => bk_execute B h ("TRUNCATE TABLE " +:+ table)))
    (fun ex => log ERROR ("Error truncating table: " +:+ table)).

Definition _overwrite (data : DataFrame) (table : string) : M DataFrame :=
  log_method ("Starting " +:+ quoted "overwrite" +:+ " write to MSSQL")
             "MSSQL overwrite complete"
    (_truncate table ;; _insert data table).

Definition _update (data : DataFrame) (table : string) : M DataFrame :=
  raise NotImplementedError.

(** [write] returns nothing; the model returns the caller's [data] as the
    call leaves it. *)
Definition write (data : DataFrame) (dbase : string) (load_type : string)
    (kw : kwargs) : M DataFrame :=
  if negb (truthy (kw_table kw)) then
    log ERROR "No table specified. Add option --table=<table_name> to write" ;;
    raise ValueError
  else
    connect dbase ;;
    with_ (with_
      (let table := default EmptyString (kw_table kw) in
       let* done :=
         if bool_decide (load_type = "merge") then
           let* d := _merge data table in ret (Some d)
         else if bool_decide (load_type = "append") then
           let* d := _append data table in ret (Some d)
         else if bool_decide (load_type = "overwrite") then
           let* d := _overwrite data table in ret (Some d)
         else if bool_decide (load_type = "update") then
           let* d := _update data table in ret (Some d)
         else
           log CRITICAL ("Load type " +:+ load_type +:+
             " is not supported. Current types of load: append, overwrite") ;;
           ret None in
       match done with
       | Some d => call Commit (bk_commit B) ;; ret d
       | None => ret data
       end)).

End Mssql.
End Mssql.

(** ** class Redshift *)

Module Redshift.
Section Redshift.

Variable B : backend.

Definition columns (data : DataFrame) : list string := df_names data.

Definition connect (dbase : string) : M unit :=
  call (Connect dbase) (fun h => bk_connect B h dbase).

Definition get_option (dtype : string) : string := "%s".

Definition options (data : DataFrame) : list string :=
  map get_option (df_dtypes data).

Definition read (dbase : string) (kw : kwargs) : M DataFrame :=
  log_method "Starting read from Redshift database" "Redshift read complete"
    (let* query :=
       if truthy (kw_query kw) then ret (default EmptyString (kw_query kw))
       else if truthy (kw_query_file kw) then
         let f := default EmptyString (kw_query_file kw) in
         call (OpenFile f) (fun h => bk_open_file B h f)
       else
         log ERROR "Need a query for database table" ;;
         raise EnvironmentError in
     connect dbase ;;
     with_
       (let* data := call (ReadSql query)
                          (fun h => bk_read_sql B h query) in
        log INFO ("MSSQL query produced " +:+ str_len (df_rows data)
                  +:+ " results") ;;
        ret data)).

Definition _insert (data : DataFrame) (table : string) : M DataFrame :=
  fun h =>
    (let data :=
       setitem "insert_timestamp" "|O" (VStr (Py.strftime (bk_now B h))) data in
     let query :=
       "INSERT INTO " +:+ table +:+ " (" +:+ Py.join "," (columns data)
       +:+ ") VALUES (" +:+ Py.join "," (options data) +:+ ")" in
     let items := df_rows (getitem (columns data) data) in
     log DEBUG ("Executing SQL Query: " +:+ query) ;;
     try_except
       (call (ExecuteMany query items)
             (fun h => bk_executemany B h query items) ;;
        log INFO ("Wrote " +:+ str_len items +:+ " records to MSSQL table: "
                  +:+ table))
       (fun ex => log ERROR ("Error writing to table: " +:+ str_exn ex)) ;;
     ret data) h.

Definition _append (data : DataFrame) (table : string) : M DataFrame :=
  log_method ("Starting " +:+ quoted "append" +:+ " write to Redshift")
             "Redshift append complete"
    (_insert data table).

(** The class defines no [_merge], [_overwrite] or [_update], and the base
    class in this module only declares [connect], [read] and [write]:
    looking one of them up on [self] raises [AttributeError]. *)
Definition missing_method : M DataFrame := raise AttributeError.

Definition write (data : DataFrame) (dbase : string) (table : string)
    (load_type : string) : M DataFrame :=
  connect dbase ;;
  with_ (with_
    (let* done :=
       if bool_decide (load_type = "merge") then
         let* d := missing_method in ret (Some d)
       else if bool_decide (load_type = "append") then
         let* d := _append data table in ret (Some d)
       else if bool_decide (load_type = "overwrite") then
         let* d := missing_method in ret (Some d)
       else if bool_decide (load_type = "update") then
         let* d := missing_method in ret (Some d)
       else
         log CRITICAL ("Load type " +:+ load_type +:+
           " is not supported. Current types of load: append, overwrite") ;;
         ret None in
     match done with
     | Some d => call Commit (bk_commit B) ;; ret d
     | None => ret data
     end)).

End Redshift.
End Redshift.

(** ** Stand-in stores

    Deterministic collaborators to run the suppliers against. *)

Module Fake.

Definition clock : Py.Timestamp := Py.mkTimestamp 2024 3 7 9 5 0.

Definition no_frame : DataFrame := mkDataFrame [] [].

(** A store that accepts every call and holds nothing. *)
Definition accept : backend :=
  {| bk_scan := fun _ _ _ => inr (mkResponse [] None);
     bk_put_item := fun _ _ => inr tt;
     bk_update_item := fun _ _ _ _ => inr tt;
     bk_open_file := fun _ _ => inr EmptyString;
     bk_connect := fun _ _ => inr tt;
     bk_read_sql := fun _ _ => inr no_frame;
     bk_execute := fun _ _ => inr tt;
     bk_executemany := fun _ _ _ => inr tt;
     bk_commit := fun _ => inr tt;
     bk_now := fun _ => clock |}.

(** The continuation token that asks for page [i]. *)
Definition token (i : nat) : record := {[ "page" := VInt (Z.of_nat i) ]}.

Definition page_index (start : option record) : nat :=
  match start with
  | Some k => match k !! "page" with
              | Some (VInt i) => Z.to_nat i
              | _ => O
              end
  | None => O
  end.

(** A table scanned in the given pages: every page but the last comes
    with the token of the next one. *)
Definition paged_scan (pages : list (list record)) (h : list event)
    (start : option record) (projection : option string) : exn + response :=
  let i := page_index start in
  inr (mkResponse (default [] (pages !! i))
         (if bool_decide (S i < length pages)%nat
          then Some (token (S i)) else None)).

(** A store that scans in [pages] and answers every query with [data]. *)
Definition store (pages : list (list record)) (data : DataFrame) : backend :=
  {| bk_scan := paged_scan pages;
     bk_put_item := fun _ _ => inr tt;
     bk_update_item := fun _ _ _ _ => inr tt;
     bk_open_file := fun _ _ => inr EmptyString;
     bk_connect := fun _ _ => inr tt;
     bk_read_sql := fun _ _ => inr data;
     bk_execute := fun _ _ => inr tt;
     bk_executemany := fun _ _ _ => inr tt;
     bk_commit := fun _ => inr tt;
     bk_now := fun _ => clock |}.

Definition paged (pages : list (list record)) : backend :=
  store pages no_frame.

(** A relational store whose every query yields [data]. *)
Definition serving (data : DataFrame) : backend := store [] data.

Definition is_put (ev : event) : bool :=
  match ev with PutItem _ => true | _ => false end.

(** A store that rejects with [ex] the put that follows [n] earlier ones,
    and every bulk insert. *)
Definition rejecting (n : nat) (ex : exn) : backend :=
  {| bk_scan := fun _ _ _ => inr (mkResponse [] None);
     bk_put_item := fun h _ =>
       if bool_decide (length (filter is_put h) = n) then inl ex else inr tt;
     bk_update_item := fun _ _ _ _ => inr tt;
     bk_open_file := fun _ _ => inr EmptyString;
     bk_connect := fun _ _ => inr tt;
     bk_read_sql := fun _ _ => inr no_frame;
     bk_execute := fun _ _ => inr tt;
     bk_executemany := fun _ _ _ => inl ex;
     bk_commit := fun _ => inr tt;
     bk_now := fun _ => clock |}.

Definition boom : exn := BackendError None "boom".

(** The binary64 number nearest to 19.99. *)
Definition f19_99 : Py.float := S754_finite false 5626684784446013 (-48).

(** Records [{id: first}, ..., {id: first + n - 1}]. *)
Definition numbered (first : Z) (n : nat) : list record :=
  map (fun i => {[ "id" := VInt (first + Z.of_nat i) ]}) (seq 0 n).

Definition pages_100_100_50 : list (list record) :=
  [numbered 0 100; numbered 100 100; numbered 200 50].

Definition limit_120 : kwargs :=
  mkKwargs None None None (Some 120) None None None.

Definition query_limit_1 : kwargs :=
  mkKwargs (Some "sku, price") None None (Some 1) None None None.

Definition table_t : kwargs :=
  mkKwargs None None None None (Some "t") None None.


Definition orders : DataFrame :=
  mkDataFrame [("id", "<i8"); ("new_status", "|O"); ("new_count", "<i8")]
    [[VInt 1; VStr "open"; VInt 3];
     [VInt 2; VStr "paid"; VInt 5];
     [VInt 3; VStr "sent"; VInt 8]].

Definition prices : DataFrame :=
  mkDataFrame [("sku", "|O"); ("price", "<f8")]
    [[VStr "a"; VFloat f19_99]; [VStr "b"; VFloat f19_99]].

End Fake.

(** ** Closed forms used in the statements *)

(** Coefficient and exponent of [Decimal(str(x))] for a float whose digit
    string is [ds] with the decimal point at [dp]: a float printed as an
    integer carries the [.0] that [repr] appends. *)
Definition repr_decimal (ds : list N) (dp : Z) : N * Z :=
  let n := Z.of_nat (length ds) in
  if (-4 <? dp) && (dp <=? 16) && (n <=? dp)
  then ((Py.number ds * 10 ^ Z.to_N (dp - n + 1))%N, -1)
  else (Py.number ds, dp - n).




(** The value an [_encode]d cell holds. *)
Definition encoded (v : value) : value :=
  match v with
  | VInt n => VDecimal (Py.DFinite (n <? 0) (Z.abs_N n) 0)
  | VFloat (S754_finite s m e) =>
      let '(ds, dp) := Py.float_digits m e in
      let '(c, x) := repr_decimal ds dp in
      VDecimal (Py.DFinite s c x)
  | VFloat (S754_zero s) => VDecimal (Py.DFinite s 0 (-1))
  | VFloat (S754_infinity s) => VDecimal (Py.DInfinity s)
  | VFloat S754_nan => VDecimal (Py.DNaN false)
  | VTimestamp t => VStr (Py.strftime t)
  | _ => v
  end.

(** The store answers a scan of [params] with the pages [resps], one after
    the other: the first to the request that starts at [start], each later
    one to the request carrying the key the page before it returned; only
    the last page comes without a key. *)
Fixpoint serves (B : backend) (params : option string)
    (start : option record) (resps : list response) : Prop :=
  match resps with
  | [] => False
  | r :: rest =>
      (forall h, bk_scan B h start params = inr r) /\
      match rest with
      | [] => LastEvaluatedKey r = None
      | _ :: _ =>
          is_Some (LastEvaluatedKey r) /\
          serves B params (LastEvaluatedKey r) rest
      end
  end.

(** How many of the pages still to come [read] requests once it holds
    [count] items: none when the count exceeds the limit. *)
Fixpoint more_pages (limit : Z) (count : nat) (pages : list (list record))
  : nat :=
  match pages with
  | [] => O
  | p :: rest =>
      if Z.of_nat count >? limit then O
      else S (more_pages limit (count + length p) rest)
  end.

(** The attribute-value maps of the [update_item] calls of a trace. *)
Definition eavs_of (tr : list event) : list record :=
  omap (fun ev => match ev with
                  | UpdateItem _ _ eav => Some eav
                  | _ => None
                  end) tr.

(** The items of the [put_item] calls of a trace. *)
Definition puts_of (tr : list event) : list record :=
  omap (fun ev => match ev with
                  | PutItem item => Some item
                  | _ => None
                  end) tr.

Definition is_scan (ev : event) : bool :=
  match ev with Scan _ _ => true | _ => false end.

(** The strategy names [write] knows. *)
Definition strategies : list string :=
  ["append"; "overwrite"; "merge"; "update"].

(** The store answers the scan of [params] with the pages [resps], each
    with a continuation key, and raises [ex] at the request that follows
    the last of them. *)
Fixpoint raises_after (B : backend) (params : option string)
    (start : option record) (resps : list response) (ex : exn) : Prop :=
  match resps with
  | [] => forall h, bk_scan B h start params = inl ex
  | r :: rest =>
      (forall h, bk_scan B h start params = inr r) /\
      is_Some (LastEvaluatedKey r) /\
      raises_after B params (LastEvaluatedKey r) rest ex
  end.

(** The events a [Dynamo.write] of the given strategy may leave: the only
    store calls are [put_item] for a merge and [update_item] for an
    update. *)
Definition write_event (load_type : string) (ev : event) : bool :=
  match ev with
  | PutItem _ => bool_decide (load_type = "merge")
  | UpdateItem _ _ _ => bool_decide (load_type = "update")
  | _ => negb (is_network ev)
  end.

(** What DynamoDB takes as an attribute value among the kinds of cell. *)
Definition is_wire_value (v : value) : bool :=
  match v with
  | VNone | VDecimal _ | VStr _ => true
  | _ => false
  end.

(** ** Further stand-ins: stores that fail, options, inputs *)

Module Cases.

(** A table scanned in [pages], each with the key of the next request;
    the request after the last page raises [ex]. *)
Definition scan_breaks (pages : list (list record)) (ex : exn) : backend :=
  {| bk_scan := fun _ start _ =>
       let i := Fake.page_index start in
       match pages !! i with
       | Some p => inr (mkResponse p (Some (Fake.token (S i))))
       | None => inl ex
       end;
     bk_put_item := fun _ _ => inr tt;
     bk_update_item := fun _ _ _ _ => inr tt;
     bk_open_file := fun _ _ => inr EmptyString;
     bk_connect := fun _ _ => inr tt;
     bk_read_sql := fun _ _ => inr Fake.no_frame;
     bk_execute := fun _ _ => inr tt;
     bk_executemany := fun _ _ _ => inr tt;
     bk_commit := fun _ => inr tt;
     bk_now := fun _ => Fake.clock |}.

(** A server that refuses every connection with [ex]. *)
Definition offline (ex : exn) : backend :=
  {| bk_scan := fun _ _ _ => inr (mkResponse [] None);
     bk_put_item := fun _ _ => inr tt;
     bk_update_item := fun _ _ _ _ => inr tt;
     bk_open_file := fun _ _ => inr EmptyString;
     bk_connect := fun _ _ => inl ex;
     bk_read_sql := fun _ _ => inr Fake.no_frame;
     bk_execute := fun _ _ => inr tt;
     bk_executemany := fun _ _ _ => inr tt;
     bk_commit := fun _ => inr tt;
     bk_now := fun _ => Fake.clock |}.

(** A server that rejects every single statement, [TRUNCATE] included,
    and takes the bulk inserts. *)
Definition no_truncate (ex : exn) : backend :=
  {| bk_scan := fun _ _ _ => inr (mkResponse [] None);
     bk_put_item := fun _ _ => inr tt;
     bk_update_item := fun _ _ _ _ => inr tt;
     bk_open_file := fun _ _ => inr EmptyString;
     bk_connect := fun _ _ => inr tt;
     bk_read_sql := fun _ _ => inr Fake.no_frame;
     bk_execute := fun _ _ => inl ex;
     bk_executemany := fun _ _ _ => inr tt;
     bk_commit := fun _ => inr tt;
     bk_now := fun _ => Fake.clock |}.

(** Every file holds [text] and every query yields [data]. *)
Definition with_file (text : string) (data : DataFrame) : backend :=
  {| bk_scan := fun _ _ _ => inr (mkResponse [] None);
     bk_put_item := fun _ _ => inr tt;
     bk_update_item := fun _ _ _ _ => inr tt;
     bk_open_file := fun _ _ => inr text;
     bk_connect := fun _ _ => inr tt;
     bk_read_sql := fun _ _ => inr data;
     bk_execute := fun _ _ => inr tt;
     bk_executemany := fun _ _ _ => inr tt;
     bk_commit := fun _ => inr tt;
     bk_now := fun _ => Fake.clock |}.

Definition small_pages : list (list record) :=
  [Fake.numbered 0 2; Fake.numbered 2 2; Fake.numbered 4 1].

Definition limit_0 : kwargs :=
  mkKwargs None None None (Some 0) None None None.

Definition from_file : kwargs :=
  mkKwargs None None (Some "q.sql") None None None None.

Definition inline_query : kwargs :=
  mkKwargs (Some "SELECT 1") None None None None None None.

Definition typed_query : kwargs :=
  mkKwargs None (Some "query") None None None None None.

(** Twenty-seven pairs, one more than there are letters. *)
Definition wide_expression : string :=
  Py.join "," (replicate 27 "c=v").

End Cases.

(** ** Cells outside the data model

    [_encode] tells the kinds apart with [isinstance], and nothing stops a
    record from holding a cell that is none of the six kinds of [value]: a
    [bool], which is an [int] instance, or an object of a kind the module
    does not know. *)

Module Raw.

Inductive cell : Type :=
  | Data (v : value)
  | Bool (b : bool)
  | Other (repr : string).

(** [str(b)] for a [bool]. *)
Definition str_bool (b : bool) : string := if b then "True" else "False".

(** The branch of [_encode] for one cell: a [bool] passes the test
    [isinstance(v, int)] and goes to [Decimal(str(v))]. *)
Definition encode_cell (c : cell) : exn + cell :=
  match c with
  | Data v =>
      match Dynamo.encode_value v with
      | inl ex => inl ex
      | inr v' => inr (Data v')
      end
  | Bool b =>
      match Py.Decimal_of_str (str_bool b) with
      | Some d => inr (Data (VDecimal d))
      | None => inl InvalidOperation
      end
  | Other o => inr (Other o)
  end.

(** [_encode] on a record of such cells. *)
Definition _encode (item : gmap string cell) : exn + gmap string cell :=
  map_fold
    (fun k v acc =>
       match acc with
       | inl ex => inl ex
       | inr it =>
           match encode_cell v with
           | inl ex => inl ex
           | inr v' => inr (<[k := v']> it)
           end
       end)
    (inr item) item.

End Raw.

(** The cell an [_encode]d cell holds, when it is no [bool]. *)
Definition encoded_cell (c : Raw.cell) : Raw.cell :=
  match c with
  | Raw.Data v => Raw.Data (encoded v)
  | _ => c
  end.

Definition is_bool (c : Raw.cell) : bool :=
  match c with
  | Raw.Bool _ => true
  | _ => false
  end.

(** The record holds no [bool] cell. *)
Definition no_bool (item : gmap string Raw.cell) : Prop :=
  map_Forall (fun _ c => is_bool c = false) item.

(** The cells [_encode] leaves alone: [None], decimals, strings and the
    objects of unknown kind. *)
Definition is_kept (c : Raw.cell) : bool :=
  match c with
  | Raw.Data v => is_wire_value v
  | Raw.Bool _ => false
  | Raw.Other _ => true
  end.




(** * Properties *)

Arguments String.append : simpl never.

(** Unfolds the effect combinators so that a computation runs on a
    symbolic history. *)
Ltac run :=
  unfold log_method, log, emit, call, lift, ret, raise, try_except, with_,
    bind.


(** ** Decimal digits: printing and reading back *)

Section Digits.

Local Open Scope N_scope.

Let step := Py.number_step.

Lemma digits_aux_number fuel n acc :
  n < 2 ^ N.of_nat fuel ->
  Py.number (Py.digits_aux fuel n acc) = foldl step n acc.
Proof.
  revert n acc. induction fuel as [|k IH]; intros n acc Hn.
  - simpl in Hn. assert (n = 0) as -> by lia. reflexivity.
  - simpl. destruct (N.ltb_spec n 10) as [Hlt|Hge].
    + reflexivity.
    + rewrite IH.
      * simpl. unfold step at 2, Py.number_step. f_equal.
        pose proof (N.div_mod n 10). lia.
      * rewrite Nat2N.inj_succ, N.pow_succ_r' in Hn.
        apply N.Div0.div_lt_upper_bound. lia.
Qed.

Lemma digits_aux_lt10 fuel n acc :
  n < 2 ^ N.of_nat fuel ->
  Forall (fun d => d < 10) acc ->
  Forall (fun d => d < 10) (Py.digits_aux fuel n acc).
Proof.
  revert n acc. induction fuel as [|k IH]; intros n acc Hn Hacc.
  - exact Hacc.
  - simpl. destruct (N.ltb_spec n 10) as [Hlt|Hge].
    + by constructor.
    + apply IH.
      * rewrite Nat2N.inj_succ, N.pow_succ_r' in Hn.
        apply N.Div0.div_lt_upper_bound. lia.
      * constructor; [|done]. apply N.mod_lt. lia.
Qed.

Lemma digits_aux_nonempty fuel n acc :
  Py.digits_aux (S fuel) n acc <> [].
Proof.
  revert n acc. induction fuel as [|k IH]; intros n acc; simpl.
  - by destruct (n <? 10).
  - destruct (n <? 10); [done|]. apply (IH (n / 10)).
Qed.

Lemma digits_fuel n : n < 2 ^ N.of_nat (S (N.to_nat (N.log2 n))).
Proof.
  rewrite Nat2N.inj_succ, N2Nat.id.
  destruct (N.eq_dec n 0) as [->|Hn]; [done|].
  apply N.log2_spec. lia.
Qed.

Lemma number_digits n : Py.number (Py.digits n) = n.
Proof. unfold Py.digits. by rewrite digits_aux_number by apply digits_fuel. Qed.

Lemma digits_lt10 n : Forall (fun d => d < 10) (Py.digits n).
Proof. apply digits_aux_lt10; [apply digits_fuel | constructor]. Qed.

Lemma digits_nonempty n : Py.digits n <> [].
Proof. apply digits_aux_nonempty. Qed.

Lemma lt10_cases d :
  d < 10 -> d = 0 \/ d = 1 \/ d = 2 \/ d = 3 \/ d = 4 \/ d = 5 \/ d = 6
            \/ d = 7 \/ d = 8 \/ d = 9.
Proof. lia. Qed.

Lemma char_digit_digit_char d : d < 10 -> Py.char_digit (Py.digit_char d) = Some d.
Proof.
  intros H. destruct (lt10_cases d H) as [->|[->|[->|[->|[->|[->|[->|[->|[->| ->]]]]]]]]];
    reflexivity.
Qed.

Lemma is_digit_digit_char d : d < 10 -> Py.is_digit (Py.digit_char d) = true.
Proof. intros H. unfold Py.is_digit. by rewrite char_digit_digit_char. Qed.

Lemma chars_number_digits acc ds rest :
  Forall (fun d => d < 10) ds ->
  Py.chars_number acc (map Py.digit_char ds ++ rest)
  = Py.chars_number (foldl step acc ds) rest.
Proof.
  intros H. revert acc. induction H as [|d ds Hd _ IH]; intros acc; [done|].
  simpl. rewrite char_digit_digit_char by done. apply IH.
Qed.

Lemma span_digits_digits ds rest :
  Forall (fun d => d < 10) ds ->
  Py.span_digits rest = ([], rest) ->
  Py.span_digits (map Py.digit_char ds ++ rest) = (map Py.digit_char ds, rest).
Proof.
  intros H Hrest. induction H as [|d ds Hd _ IH]; [done|].
  simpl. rewrite is_digit_digit_char by done. by rewrite IH.
Qed.

End Digits.

(** ** Reading a decimal literal *)

Lemma is_digit_not c x : Py.is_digit c = true -> Py.is_digit x = false -> c <> x.
Proof. intros H1 H2 ->. congruence. Qed.

Lemma lower_digit c : Py.is_digit c = true -> Py.lower c = c.
Proof.
  unfold Py.is_digit, Py.char_digit, Py.lower. intros H.
  destruct ((48 <=? N_of_ascii c)%N && (N_of_ascii c <=? 57)%N) eqn:E; [|done].
  apply andb_true_iff in E as [E1 E2].
  apply N.leb_le in E1, E2.
  destruct (N.leb_spec 65 (N_of_ascii c)); [lia|done].
Qed.

Lemma split_sign_digit c r :
  Py.is_digit c = true -> Py.split_sign (c :: r) = (false, c :: r).
Proof.
  intros H. unfold Py.split_sign.
  rewrite !bool_decide_eq_false_2; [done| |]; by apply is_digit_not.
Qed.

Lemma split_sign_chars s c r :
  Py.is_digit c = true ->
  Py.split_sign (Py.sign_chars s ++ c :: r) = (s, c :: r).
Proof.
  intros H. destruct s; [done|]. by apply split_sign_digit.
Qed.

Lemma not_special c r :
  Py.is_digit c = true ->
  Py.chars_eqb (map Py.lower (c :: r)) "inf" = false /\
  Py.chars_eqb (map Py.lower (c :: r)) "infinity" = false /\
  Py.chars_eqb (map Py.lower (c :: r)) "nan" = false.
Proof.
  intros H. simpl. rewrite lower_digit by done. unfold Py.chars_eqb.
  repeat split; apply bool_decide_eq_false_2; simpl; intros [= -> _]; done.
Qed.

Lemma chars_number_map ds :
  Forall (fun d => (d < 10)%N) ds ->
  Py.chars_number 0 (map Py.digit_char ds) = Some (Py.number ds).
Proof.
  intros H. rewrite <- (app_nil_r (map _ _)).
  by rewrite chars_number_digits.
Qed.

Lemma span_digits_stop c r :
  Py.is_digit c = false -> Py.span_digits (c :: r) = ([], c :: r).
Proof. intros H. simpl. by rewrite H. Qed.

Lemma parse_exponent_digits (sx : bool) x :
  x <> [] -> Forall (fun d => (d < 10)%N) x ->
  Py.parse_exponent ((if sx then "-" else "+")%char :: map Py.digit_char x)
  = Some (if sx then - Z.of_N (Py.number x) else Z.of_N (Py.number x)).
Proof.
  intros Hne Hx. unfold Py.parse_exponent.
  assert (Py.split_sign ((if sx then "-" else "+")%char :: map Py.digit_char x)
          = (sx, map Py.digit_char x)) as -> by (by destruct sx).
  destruct x as [|d x]; [done|]. change (map Py.digit_char (d :: x)) with (Py.digit_char d :: map Py.digit_char x) at 1.
  cbv iota beta. by rewrite chars_number_map.
Qed.

Lemma Decimal_of_chars_literal s (I : list N) (F : option (list N))
    (X : option (bool * list N)) :
  I <> [] -> Forall (fun d => (d < 10)%N) I ->
  (forall f, F = Some f -> Forall (fun d => (d < 10)%N) f) ->
  (forall sx x, X = Some (sx, x) -> x <> [] /\ Forall (fun d => (d < 10)%N) x) ->
  Py.Decimal_of_chars
    (Py.sign_chars s ++ map Py.digit_char I
       ++ match F with
          | Some f => "."%char :: map Py.digit_char f
          | None => []
          end
       ++ match X with
          | Some (sx, x) =>
              "e"%char :: (if sx then "-" else "+")%char :: map Py.digit_char x
          | None => []
          end)
  = Some (Py.DFinite s (Py.number (I ++ default [] F))
            (match X with
             | Some (sx, x) =>
                 if sx then - Z.of_N (Py.number x) else Z.of_N (Py.number x)
             | None => 0
             end - Z.of_nat (length (default [] F)))).
Proof.
  intros HI HdI HF HX.
  set (expo := match X with Some (sx, x) => _ | None => [] end).
  set (frac := match F with Some f => _ | None => [] end).
  assert (Hexpo : Py.span_digits expo = ([], expo)).
  { subst expo. destruct X as [[sx x]|]; [|done]. by apply span_digits_stop. }
  assert (Hfrac : Py.span_digits (frac ++ expo) = ([], frac ++ expo)).
  { subst frac. destruct F as [f|]; [|done]. by apply span_digits_stop. }
  destruct I as [|i0 I']; [done|].
  assert (Hi0 : Py.is_digit (Py.digit_char i0) = true).
  { apply is_digit_digit_char. by inversion HdI. }
  unfold Py.Decimal_of_chars.
  change (map Py.digit_char (i0 :: I') ++ frac ++ expo)
    with (Py.digit_char i0 :: (map Py.digit_char I' ++ frac ++ expo)).
  rewrite split_sign_chars by done.
  destruct (not_special (Py.digit_char i0) (map Py.digit_char I' ++ frac ++ expo) Hi0)
    as (-> & -> & ->).
  cbv iota beta. simpl orb. cbv iota.
  change (Py.digit_char i0 :: (map Py.digit_char I' ++ frac ++ expo))
    with (map Py.digit_char (i0 :: I') ++ frac ++ expo).
  rewrite (span_digits_digits _ _ HdI Hfrac).
  assert (Hex : match expo with
                | [] => Some 0
                | c :: r => if bool_decide (Py.lower c = "e"%char)
                            then Py.parse_exponent r else None
                end = Some (match X with
                            | Some (sx, x) =>
                                if sx then - Z.of_N (Py.number x)
                                else Z.of_N (Py.number x)
                            | None => 0
                            end)).
  { subst expo. destruct X as [[sx x]|]; [|done].
    destruct (HX sx x eq_refl). simpl. by rewrite parse_exponent_digits. }
  destruct F as [f|]; subst frac.
  - simpl app at 1. cbv iota beta. rewrite bool_decide_eq_true_2 by done.
    rewrite (span_digits_digits _ _ (HF f eq_refl) Hexpo).
    rewrite Hex. simpl default.
    rewrite <- map_app, chars_number_map, length_map.
    + done.
    + apply Forall_app. split; [done|by apply HF].
  - change ([] ++ expo) with expo.
    assert (match expo with
            | [] => ([], [])
            | c :: r => if bool_decide (c = "."%char) then Py.span_digits r else ([], expo)
            end = ([] : list ascii, expo)) as ->.
    { subst expo. destruct X as [[sx x]|]; done. }
    rewrite Hex. simpl default. rewrite !app_nil_r.
    by rewrite chars_number_map.
Qed.

Lemma number_app l1 l2 :
  Py.number (l1 ++ l2) = foldl Py.number_step (Py.number l1) l2.
Proof. unfold Py.number. apply foldl_app. Qed.

Lemma number_zeros_l k ds :
  Py.number (replicate k 0%N ++ ds) = Py.number ds.
Proof. induction k as [|k IH]; [done|]. exact IH. Qed.

Lemma number_zeros_r k a :
  foldl Py.number_step a (replicate k 0%N) = (a * 10 ^ N.of_nat k)%N.
Proof.
  revert a. induction k as [|k IH]; intros a.
  - simpl. lia.
  - simpl replicate. simpl foldl. rewrite IH. unfold Py.number_step.
    rewrite Nat2N.inj_succ, N.pow_succ_r'. lia.
Qed.

Lemma zeros_digits n :
  Py.zeros n = map Py.digit_char (replicate (Z.to_nat n) 0%N).
Proof.
  unfold Py.zeros. induction (Z.to_nat n) as [|k IH]; [done|].
  simpl. by rewrite IH.
Qed.

Lemma Forall_zeros k : Forall (fun d => (d < 10)%N) (replicate k 0%N).
Proof. apply Forall_replicate. lia. Qed.

Lemma nat_chars_pad x :
  exists ds, ds <> [] /\ Forall (fun d => (d < 10)%N) ds /\
    Py.number ds = x /\
    (if (Z.of_N x <? 10) then "0"%char :: Py.nat_chars x else Py.nat_chars x)
    = map Py.digit_char ds.
Proof.
  destruct (Z.of_N x <? 10).
  - exists (0%N :: Py.digits x). repeat split; try done.
    + constructor; [lia|apply digits_lt10].
    + change (Py.number (0%N :: Py.digits x)) with (Py.number (Py.digits x)).
      apply number_digits.
  - exists (Py.digits x). repeat split; try done.
    + apply digits_nonempty.
    + apply digits_lt10.
    + apply number_digits.
Qed.

Ltac use_literal H :=
  lazymatch type of H with
  | _ -> _ -> _ -> _ -> Py.Decimal_of_chars ?a = _ =>
      lazymatch goal with
      | |- Py.Decimal_of_chars ?b = _ =>
          replace b with a;
          [rewrite H; clear H
          |clear H; f_equal; simpl;
           rewrite ?map_app, <- ?app_assoc, ?app_nil_r; try done]
      end
  end.

Lemma Decimal_of_chars_format s ds dp :
  ds <> [] -> Forall (fun d => (d < 10)%N) ds ->
  Py.Decimal_of_chars (Py.sign_chars s ++ Py.format_repr ds dp)
  = Some (let '(c, x) := repr_decimal ds dp in Py.DFinite s c x).
Proof.
  intros Hne Hds. unfold Py.format_repr, repr_decimal.
  set (n := Z.of_nat (length ds)).
  assert (Hn : 0 < n) by (destruct ds; [done|simpl in n; lia]).
  destruct ((-4 <? dp) && (dp <=? 16)) eqn:Hpos; simpl andb.
  - destruct (Z.leb_spec dp 0) as [Hdp|Hdp].
    + destruct (Z.leb_spec n dp) as [Hnd|Hnd]; [lia|].
      rewrite zeros_digits.
      pose proof (Decimal_of_chars_literal s [0%N]
        (Some (replicate (Z.to_nat (- dp)) 0%N ++ ds)) None) as Hlit.
      use_literal Hlit.
      * f_equal. f_equal.
        -- apply (number_zeros_l (S (Z.to_nat (- dp)))).
        -- simpl. rewrite length_app, length_replicate. lia.
      * done.
      * constructor; [lia|constructor].
      * intros f [= <-]. apply Forall_app. split; [apply Forall_zeros|done].
      * done.
    + destruct (Z.leb_spec n dp) as [Hnd|Hnd].
      * rewrite zeros_digits.
        pose proof (Decimal_of_chars_literal s
          (ds ++ replicate (Z.to_nat (dp - n)) 0%N) (Some [0%N]) None) as Hlit.
        use_literal Hlit.
        -- f_equal. f_equal. simpl default.
           rewrite <- app_assoc.
           change (replicate (Z.to_nat (dp - n)) 0%N ++ [0%N])
             with (replicate (Z.to_nat (dp - n)) 0%N ++ replicate 1 0%N).
           rewrite <- replicate_add, number_app, number_zeros_r.
           f_equal. f_equal. lia.
        -- by destruct ds.
        -- apply Forall_app. split; [done|apply Forall_zeros].
        -- intros f [= <-]. constructor; [lia|constructor].
        -- done.
      * rewrite !firstn_map, !skipn_map.
        pose proof (Decimal_of_chars_literal s (take (Z.to_nat dp) ds)
          (Some (drop (Z.to_nat dp) ds)) None) as Hlit.
        use_literal Hlit.
        -- simpl default. rewrite take_drop, length_drop. f_equal. f_equal. lia.
        -- destruct ds; [done|]. destruct (Z.to_nat dp) eqn:E; [lia|done].
        -- by apply Forall_take.
        -- intros f [= <-]. by apply Forall_drop.
        -- done.
  - rewrite !firstn_map, !skipn_map.
    destruct (nat_chars_pad (Z.abs_N (dp - 1))) as (xs & Hxne & Hxs & Hxn & Hxeq).
    rewrite N2Z.inj_abs_N in Hxeq. rewrite Hxeq.
    pose proof (Decimal_of_chars_literal s (take 1 ds)
      (if 1 <? n then Some (drop 1 ds) else None)
      (Some (dp - 1 <? 0, xs))) as Hlit.
    use_literal Hlit.
    + f_equal. rewrite Hxn. f_equal.
      * destruct (Z.ltb_spec 1 n).
        -- simpl. by rewrite take_drop.
        -- simpl. rewrite app_nil_r. f_equal. apply take_ge. lia.
      * rewrite N2Z.inj_abs_N.
        assert (length (default [] (if 1 <? n then Some (drop 1 ds) else None))
                = (length ds - 1)%nat) as ->.
        { destruct (Z.ltb_spec 1 n); simpl; [by rewrite length_drop|lia]. }
        destruct (Z.ltb_spec (dp - 1) 0); lia.
    + by destruct ds.
    + by apply Forall_take.
    + intros f Hf. destruct (1 <? n); [|done]. injection Hf as <-.
      by apply Forall_drop.
    + by intros sx x [= <- <-].
    + by destruct (1 <? n).
Qed.

(** ** The type normalizer as a total function *)

Lemma Decimal_of_str_chars cs :
  Py.Decimal_of_str (string_of_list_ascii cs) = Py.Decimal_of_chars cs.
Proof.
  unfold Py.Decimal_of_str. by rewrite list_ascii_of_string_of_list_ascii.
Qed.

Lemma Decimal_of_str_int n :
  Py.Decimal_of_str (Py.str_int n)
  = Some (Py.DFinite (n <? 0) (Z.abs_N n) 0).
Proof.
  unfold Py.str_int. rewrite Decimal_of_str_chars.
  pose proof (Decimal_of_chars_literal (n <? 0) (Py.digits (Z.abs_N n))
                None None) as Hlit.
  use_literal Hlit.
  - simpl. by rewrite app_nil_r, number_digits.
  - apply digits_nonempty.
  - apply digits_lt10.
  - done.
  - done.
  - unfold Py.int_chars, Py.nat_chars. by destruct (n <? 0).
Qed.

Lemma strip_zeros_rev_wf ds q :
  ds <> [] -> Forall (fun d => (d < 10)%N) ds ->
  (Py.strip_zeros_rev ds q).1 <> [] /\
  Forall (fun d => (d < 10)%N) (Py.strip_zeros_rev ds q).1.
Proof.
  revert q. induction ds as [|d ds IH]; intros q Hne H; [done|].
  simpl. destruct d; [|done]. destruct ds as [|d' ds']; [done|].
  apply IH; [done|]. by inversion H.
Qed.

Lemma float_digits_wf m e :
  (Py.float_digits m e).1 <> [] /\
  Forall (fun d => (d < 10)%N) (Py.float_digits m e).1.
Proof.
  unfold Py.float_digits. destruct (Py.shortest m e) as [n q].
  destruct (strip_zeros_rev_wf (rev (Py.digits (Z.to_N n))) q) as [H1 H2].
  - intros H. apply (digits_nonempty (Z.to_N n)).
    apply (f_equal (@rev N)) in H. by rewrite rev_involutive in H.
  - apply Forall_rev, digits_lt10.
  - destruct (Py.strip_zeros_rev _ _) as [rds q']. simpl in *. split.
    + intros H. apply H1. apply (f_equal (@rev N)) in H.
      by rewrite rev_involutive in H.
    + by apply Forall_rev.
Qed.

Lemma encode_value_encoded v : Dynamo.encode_value v = inr (encoded v).
Proof.
  destruct v as [|n|f|d|s|t]; try done.
  - simpl. by rewrite Decimal_of_str_int.
  - destruct f as [s|s| |s m e]; simpl.
    + by destruct s.
    + by destruct s.
    + done.
    + unfold Py.str_float, Py.float_chars. rewrite Decimal_of_str_chars.
      destruct (float_digits_wf m e) as [H1 H2].
      destruct (Py.float_digits m e) as [ds dp]. simpl in *.
      rewrite Decimal_of_chars_format by done.
      by destruct (repr_decimal ds dp).
Qed.

Lemma _encode_fold (base item : record) :
  map_fold
    (fun k v (acc : exn + record) =>
       match acc with
       | inl ex => inl ex
       | inr it =>
           match Dynamo.encode_value v with
           | inl ex => inl ex
           | inr v' => inr (<[k := v']> it)
           end
       end)
    (inr base) item
  = inr ((encoded <$> item) ∪ base).
Proof.
  induction item as [|k v item Hk Hfold IH] using map_first_key_ind.
  - rewrite map_fold_empty, fmap_empty. by rewrite (left_id_L ∅ (∪)).
  - rewrite map_fold_insert_first_key by done.
    rewrite IH, encode_value_encoded.
    by rewrite fmap_insert, insert_union_l.
Qed.

Lemma _encode_encoded (item : record) :
  Dynamo._encode item = inr (encoded <$> item).
Proof.
  unfold Dynamo._encode. rewrite _encode_fold. f_equal.
  apply map_eq. intros k. rewrite lookup_union, lookup_fmap.
  by destruct (item !! k).
Qed.

Lemma encoded_idemp v : encoded (encoded v) = encoded v.
Proof.
  destruct v as [|n|f|d|s|t]; try done.
  destruct f as [s|s| |s m e]; try done.
  simpl. destruct (Py.float_digits m e) as [ds dp].
  by destruct (repr_decimal ds dp).
Qed.

Lemma mapM_total {A C} (f : A -> exn + C) (g : A -> C) l :
  (forall x, f x = inr (g x)) -> mapM f l = inr (map g l).
Proof.
  intros Hf. induction l as [|x l IH]; [done|].
  simpl. by rewrite Hf, IH.
Qed.

Lemma mapM_encode (items : list record) :
  mapM Dynamo._encode items = inr (map (fmap encoded) items).
Proof. apply mapM_total, _encode_encoded. Qed.

(** ** Dynamo.write: the guard of the update strategy *)

(** C1: with neither [key] nor [expression], an [update] write logs and
    raises [EnvironmentError] having sent nothing to the store.  With only
    one of the two the guard lets the call through, and [_update] fails on
    the missing one with [AttributeError]: the guard tests that both are
    absent where its message asks for both to be present. *)
Theorem write_update_guard B data table h :
  Dynamo.write B data table "update" no_kwargs h
  = (Raise EnvironmentError,
     h ++ [Table table;
           Log ERROR "Pleae provide a --key to update on and an --expression for columns to update"])
  /\ Dynamo.write B data table "update"
       (mkKwargs None None None None None (Some "id") None) h
     = (Raise AttributeError,
        h ++ [Table table; Log INFO "Starting update to DynamoDB"])
  /\ Dynamo.write B data table "update"
       (mkKwargs None None None None None None (Some "status=new_status")) h
     = (Raise AttributeError,
        h ++ [Table table; Log INFO "Starting update to DynamoDB"]).
Proof.
  repeat split.
  - unfold Dynamo.write, Dynamo.connect. run. simpl. by rewrite <- app_assoc.
  - unfold Dynamo.write, Dynamo._update, Dynamo.connect. run. simpl.
    rewrite mapM_encode. by rewrite <- app_assoc.
  - unfold Dynamo.write, Dynamo._update, Dynamo.connect. run. simpl.
    rewrite mapM_encode. by rewrite <- app_assoc.
Qed.

(** ** Dynamo.read: pagination and the limit *)

Section Scan.

Variable B : backend.
Variable params : option string.
Variable limit : option Z.

Lemma scan_loop_serves rest : forall r items fuel h,
  match rest with
  | [] => LastEvaluatedKey r = None
  | _ :: _ => is_Some (LastEvaluatedKey r) /\
              serves B params (LastEvaluatedKey r) rest
  end ->
  (length rest <= fuel)%nat ->
  Dynamo.scan_loop B fuel params limit r items h
  = (Ret (items ++ concat (map Items
            (take (more_pages (default Py.maxsize limit) (length items)
                     (map Items rest)) rest))),
     h ++ map (fun r' => Scan (LastEvaluatedKey r') params)
            (take (more_pages (default Py.maxsize limit) (length items)
                     (map Items rest)) (r :: rest))
       ++ (if bool_decide (more_pages (default Py.maxsize limit)
                             (length items) (map Items rest) < length rest)%nat
           then [Log CRITICAL "Stopping read iteration"] else [])).
Proof.
  induction rest as [|r1 rest' IH]; intros r items fuel h Hs Hfuel.
  - assert (Dynamo.scan_loop B fuel params limit r items h = (Ret items, h)) as ->.
    { destruct fuel; simpl; by rewrite Hs. }
    simpl. by rewrite !app_nil_r.
  - destruct Hs as [[k Hk] [Hscan Hrest]].
    simpl more_pages. simpl length at 3.
    destruct (Z.of_nat (length items) >? default Py.maxsize limit) eqn:Hgt.
    + assert (Dynamo.scan_loop B fuel params limit r items h
              = (Ret items, h ++ [Log CRITICAL "Stopping read iteration"])) as ->.
      { destruct fuel; simpl; by rewrite Hk, Hgt. }
      simpl. by rewrite app_nil_r.
    + destruct fuel as [|n]; [simpl in Hfuel; lia|].
      simpl Dynamo.scan_loop. rewrite Hk, Hgt.
      unfold bind, call. rewrite <- Hk, Hscan.
      rewrite (IH r1 (items ++ Items r1) n); [|exact Hrest|simpl in Hfuel; lia].
      rewrite length_app. simpl. rewrite <- !app_assoc. simpl.
      do 3 f_equal.
      erewrite bool_decide_ext; [done|lia].
Qed.

End Scan.

Lemma more_pages_le lim count pages :
  (more_pages lim count pages <= length pages)%nat.
Proof.
  revert count. induction pages as [|p rest IH]; intros count; simpl; [lia|].
  destruct (_ >? _); [lia|]. specialize (IH (count + length p)%nat). lia.
Qed.

Lemma more_pages_stop lim count pages :
  (more_pages lim count pages < length pages)%nat ->
  lim < Z.of_nat (count + length (concat (take (more_pages lim count pages) pages))).
Proof.
  revert count. induction pages as [|p rest IH]; intros count; simpl; [lia|].
  destruct (Z.gtb_spec (Z.of_nat count) lim) as [Hgt|Hle].
  - simpl. lia.
  - intros H. simpl. rewrite length_app.
    specialize (IH (count + length p)%nat). lia.
Qed.

Lemma more_pages_go lim count pages i :
  (i < more_pages lim count pages)%nat ->
  Z.of_nat (count + length (concat (take i pages))) <= lim.
Proof.
  revert count i. induction pages as [|p rest IH]; intros count i; simpl; [lia|].
  destruct (Z.gtb_spec (Z.of_nat count) lim) as [Hgt|Hle]; [lia|].
  intros H. destruct i as [|i]; simpl; [lia|].
  rewrite length_app. specialize (IH (count + length p)%nat i). lia.
Qed.

Lemma read_serves B fuel table kw h r0 rest :
  truthy (kw_query_type kw) = false ->
  serves B (if truthy (kw_query kw) then kw_query kw else None) None
         (r0 :: rest) ->
  (length rest <= fuel)%nat ->
  let params := if truthy (kw_query kw) then kw_query kw else None in
  let j := more_pages (default Py.maxsize (kw_limit kw))
             (length (Items r0)) (map Items rest) in
  let got := concat (map Items (take (S j) (r0 :: rest))) in
  let items := if truthy_int (kw_limit kw)
               then Py.slice_to (default 0 (kw_limit kw)) got else got in
  Dynamo.read B fuel table kw h
  = (Ret items,
     h ++ [Log INFO "Starting read from DynamoDB"; Table table;
           Scan None params]
       ++ map (fun r' => Scan (LastEvaluatedKey r') params)
              (take j (r0 :: rest))
       ++ (if bool_decide (j < length rest)%nat
           then [Log CRITICAL "Stopping read iteration"] else [])
       ++ [Log INFO ("Dynamo scan produced " +:+ str_len items
                     +:+ " results from " +:+ table);
           Log INFO "DynamoDB read complete"]).
Proof.
  intros Hqt [Hscan Hrest] Hfuel. simpl.
  unfold Dynamo.read, Dynamo.connect. run. rewrite Hqt.
  change (negb false) with true. cbv beta iota.
  rewrite Hscan.
  rewrite (scan_loop_serves B _ _ rest r0 (Items r0) fuel _ Hrest Hfuel).
  rewrite <- !app_assoc. simpl. done.
Qed.

Lemma scans_take (params : option string) j (rs : list response) :
  map (fun k => Scan k params) (take (S j) (None :: map LastEvaluatedKey rs))
  = Scan None params
    :: map (fun r' => Scan (LastEvaluatedKey r') params) (take j rs).
Proof. simpl. f_equal. by rewrite firstn_map, map_map. Qed.

Lemma read_paged B fuel table kw h r0 rest :
  truthy (kw_query_type kw) = false ->
  serves B (if truthy (kw_query kw) then kw_query kw else None) None
         (r0 :: rest) ->
  (length rest <= fuel)%nat ->
  let params := if truthy (kw_query kw) then kw_query kw else None in
  let lim := default Py.maxsize (kw_limit kw) in
  let pages := map Items (r0 :: rest) in
  let n := S (more_pages lim (length (Items r0)) (map Items rest)) in
  let got := concat (take n pages) in
  let items := if truthy_int (kw_limit kw)
               then Py.slice_to (default 0 (kw_limit kw)) got else got in
  Dynamo.read B fuel table kw h
  = (Ret items,
     h ++ [Log INFO "Starting read from DynamoDB"; Table table]
       ++ map (fun k => Scan k params)
              (take n (None :: map LastEvaluatedKey (r0 :: rest)))
       ++ (if bool_decide (n < length pages)%nat
           then [Log CRITICAL "Stopping read iteration"] else [])
       ++ [Log INFO ("Dynamo scan produced " +:+ str_len items
                     +:+ " results from " +:+ table);
           Log INFO "DynamoDB read complete"]).
Proof.
  intros Hqt Hserves Hfuel params lim pages n got items.
  rewrite (read_serves B fuel table kw h r0 rest Hqt Hserves Hfuel).
  subst items got n pages params lim. cbv zeta.
  rewrite !firstn_map. simpl length. rewrite length_map.
  rewrite (bool_decide_ext (S _ < S _)%nat (more_pages (default Py.maxsize (kw_limit kw))
     (length (Items r0)) (map Items rest) < length rest)%nat) by lia.
  by rewrite scans_take.
Qed.

(** C7: a full scan keeps requesting pages while the page at hand carries
    a continuation key, appends the pages' items in order, and stops with a
    critical log entry as soon as the items held exceed the limit while a
    key is still present.  [n] is the number of pages requested: every
    earlier count was within the limit, and when pages remain the count
    exceeds it.  The result is the accumulated items cut to [limit]. *)
Theorem read_scan_pagination B fuel table kw h r0 rest :
  truthy (kw_query_type kw) = false ->
  serves B (if truthy (kw_query kw) then kw_query kw else None) None
         (r0 :: rest) ->
  (length rest <= fuel)%nat ->
  let params := if truthy (kw_query kw) then kw_query kw else None in
  let lim := default Py.maxsize (kw_limit kw) in
  let pages := map Items (r0 :: rest) in
  let n := S (more_pages lim (length (Items r0)) (map Items rest)) in
  let got := concat (take n pages) in
  let items := if truthy_int (kw_limit kw)
               then Py.slice_to (default 0 (kw_limit kw)) got else got in
  (1 <= n <= length pages)%nat /\
  (forall i, (1 <= i < n)%nat ->
             Z.of_nat (length (concat (take i pages))) <= lim) /\
  ((n < length pages)%nat -> lim < Z.of_nat (length got)) /\
  Dynamo.read B fuel table kw h
  = (Ret items,
     h ++ [Log INFO "Starting read from DynamoDB"; Table table]
       ++ map (fun k => Scan k params)
              (take n (None :: map LastEvaluatedKey (r0 :: rest)))
       ++ (if bool_decide (n < length pages)%nat
           then [Log CRITICAL "Stopping read iteration"] else [])
       ++ [Log INFO ("Dynamo scan produced " +:+ str_len items
                     +:+ " results from " +:+ table);
           Log INFO "DynamoDB read complete"]).
Proof.
  intros Hqt Hserves Hfuel params lim pages n got items.
  pose proof (more_pages_le lim (length (Items r0)) (map Items rest)) as Hle.
  rewrite length_map in Hle.
  repeat split.
  - lia.
  - subst n pages. simpl. rewrite length_map. lia.
  - intros i [Hi1 Hi2]. destruct i as [|i]; [lia|].
    subst pages. simpl. rewrite length_app.
    apply more_pages_go. subst n. lia.
  - intros Hn. subst got n pages. simpl. rewrite length_app.
    apply more_pages_stop. simpl in Hn. rewrite !length_map in *. lia.
  - exact (read_paged B fuel table kw h r0 rest Hqt Hserves Hfuel).
Qed.

(** Pages of 100, 100 and 50 items with [limit=120]: 120 records come back,
    two pages are requested, the stop is logged. *)
Lemma read_scan_pagination_witness :
  exists items tr,
    Dynamo.read (Fake.paged Fake.pages_100_100_50) 2 "t" Fake.limit_120 []
    = (Ret items, tr)
    /\ length items = 120%nat
    /\ List.filter is_scan tr = [Scan None None; Scan (Some (Fake.token 1)) None]
    /\ In (Log CRITICAL "Stopping read iteration") tr.
Proof.
  pose proof (read_scan_pagination (Fake.paged Fake.pages_100_100_50) 2 "t"
    Fake.limit_120 []
    (mkResponse (Fake.numbered 0 100) (Some (Fake.token 1)))
    [mkResponse (Fake.numbered 100 100) (Some (Fake.token 2));
     mkResponse (Fake.numbered 200 50) None] eq_refl) as H.
  destruct H as (_ & _ & _ & H).
  - repeat split; try (intros; vm_compute; reflexivity); eauto.
  - simpl. lia.
  - eexists _, _. split; [exact H|]. split; [vm_compute; reflexivity|].
    split; [vm_compute; reflexivity|].
    vm_compute. do 4 right. left. reflexivity.
Defined.

Lemma relational_read B dbase kw h data :
  truthy (kw_query kw) = true ->
  (forall h', bk_connect B h' dbase = inr tt) ->
  (forall h' q, bk_read_sql B h' q = inr data) ->
  Mssql.read B dbase kw h
  = (Ret data,
     h ++ [Log INFO "Starting read from MSSQL database"; Connect dbase;
           ReadSql (default EmptyString (kw_query kw));
           Log INFO ("MSSQL query produced " +:+ str_len (df_rows data)
                     +:+ " results");
           Exit; Log INFO "MSSQL read complete"])
  /\ Redshift.read B dbase kw h
  = (Ret data,
     h ++ [Log INFO "Starting read from Redshift database"; Connect dbase;
           ReadSql (default EmptyString (kw_query kw));
           Log INFO ("MSSQL query produced " +:+ str_len (df_rows data)
                     +:+ " results");
           Exit; Log INFO "Redshift read complete"]).
Proof.
  intros Hq Hc Hr. split.
  - unfold Mssql.read, Mssql.connect. run. rewrite Hq, Hc, Hr.
    by rewrite <- !app_assoc.
  - unfold Redshift.read, Redshift.connect. run. rewrite Hq, Hc, Hr.
    by rewrite <- !app_assoc.
Qed.

(** C2 as stated fails on the relational stores: with [limit=1] both
    readers hand back the two rows their query produced. *)
Lemma read_limit_counterexample :
  kw_limit Fake.query_limit_1 = Some 1 /\
  (Mssql.read (Fake.serving Fake.prices) "db" Fake.query_limit_1 []).1
  = Ret Fake.prices /\
  (Redshift.read (Fake.serving Fake.prices) "db" Fake.query_limit_1 []).1
  = Ret Fake.prices /\
  length (df_rows Fake.prices) = 2%nat.
Proof. repeat split. Qed.

(** C2, amended: on the key-value store a positive [limit] cuts the
    accumulated items to their first [limit] records, so at most [limit]
    and exactly [limit] when more were accumulated; the relational readers
    take no limit and return the frame of the query as it is. *)
Theorem read_limit B fuel target kw h n :
  kw_limit kw = Some n -> 0 < n ->
  (forall r0 rest,
     truthy (kw_query_type kw) = false ->
     serves B (if truthy (kw_query kw) then kw_query kw else None) None
            (r0 :: rest) ->
     (length rest <= fuel)%nat ->
     let pages := map Items (r0 :: rest) in
     let got := concat (take (S (more_pages n (length (Items r0))
                                   (map Items rest))) pages) in
     (Dynamo.read B fuel target kw h).1 = Ret (take (Z.to_nat n) got) /\
     length (take (Z.to_nat n) got) = (Z.to_nat n `min` length got)%nat) /\
  (forall data,
     truthy (kw_query kw) = true ->
     (forall h', bk_connect B h' target = inr tt) ->
     (forall h' q, bk_read_sql B h' q = inr data) ->
     (Mssql.read B target kw h).1 = Ret data /\
     (Redshift.read B target kw h).1 = Ret data).
Proof.
  intros Hlim Hpos. split.
  - intros r0 rest Hqt Hs Hfuel pages got.
    rewrite (read_paged B fuel target kw h r0 rest Hqt Hs Hfuel).
    rewrite Hlim. simpl fst. unfold truthy_int, Py.slice_to. simpl default.
    destruct (Z.eqb_spec n 0); [lia|]. destruct (Z.leb_spec 0 n); [|lia].
    simpl negb. cbv iota. split; [done|]. apply length_take.
  - intros data Hq Hc Hr.
    destruct (relational_read B target kw h data Hq Hc Hr) as [-> ->]. done.
Qed.

(** With [limit=1]: one record from the key-value store, both rows from
    the relational ones. *)
Lemma read_limit_witness :
  (exists items,
     (Dynamo.read (Fake.store Fake.pages_100_100_50 Fake.prices) 2 "t"
                  Fake.query_limit_1 []).1 = Ret items
     /\ length items = 1%nat) /\
  (Mssql.read (Fake.store Fake.pages_100_100_50 Fake.prices) "t"
              Fake.query_limit_1 []).1 = Ret Fake.prices /\
  (Redshift.read (Fake.store Fake.pages_100_100_50 Fake.prices) "t"
                 Fake.query_limit_1 []).1 = Ret Fake.prices.
Proof.
  destruct (read_limit (Fake.store Fake.pages_100_100_50 Fake.prices) 2 "t"
              Fake.query_limit_1 [] 1 eq_refl ltac:(lia)) as [HD HR].
  split.
  - destruct (HD (mkResponse (Fake.numbered 0 100) (Some (Fake.token 1)))
      [mkResponse (Fake.numbered 100 100) (Some (Fake.token 2));
       mkResponse (Fake.numbered 200 50) None] eq_refl) as [H1 H2].
    + repeat split; try (intros; vm_compute; reflexivity); eauto.
    + simpl. lia.
    + eexists. split; [exact H1|]. vm_compute. reflexivity.
  - apply (HR Fake.prices); [reflexivity| |]; intros; reflexivity.
Defined.

(** ** The strategy dispatch of write *)

Lemma unknown_strategy load_type :
  load_type ∉ strategies ->
  load_type <> "append" /\ load_type <> "overwrite" /\
  load_type <> "merge" /\ load_type <> "update".
Proof.
  unfold strategies. rewrite !not_elem_of_cons. tauto.
Qed.

Lemma bogus_unknown : "bogus" ∉ strategies.
Proof.
  unfold strategies. rewrite !not_elem_of_cons. repeat split; try done.
  apply not_elem_of_nil.
Qed.

(** C6 as stated fails on MSSQL: a write with an unknown strategy and no
    [table] option raises [ValueError] (logged as an error, not as
    critical) before the strategy is looked at. *)
Lemma write_unrecognized_counterexample :
  ("bogus" ∉ strategies) /\
  Mssql.write Fake.accept Fake.prices "db" "bogus" no_kwargs []
  = (Raise ValueError,
     [Log ERROR "No table specified. Add option --table=<table_name> to write"]).
Proof.
  split; [apply bogus_unknown|reflexivity].
Qed.

(** C6, amended: once a write reaches the dispatch (always on the
    key-value store, with a [table] option and an open connection on MSSQL,
    with an open connection on Redshift) an unknown strategy name is logged
    at critical severity and the call returns without writing; [overwrite]
    on the key-value store and [merge] or [update] on MSSQL raise
    [NotImplementedError].  An MSSQL write without a [table] option raises
    [ValueError] whatever the strategy, before it connects. *)
Theorem write_dispatch B data target table load_type kw h :
  load_type ∉ strategies ->
  Dynamo.write B data target load_type kw h
  = (Ret tt,
     h ++ [Table target;
           Log CRITICAL ("Load type " +:+ load_type +:+
                         " is not supported. Current types of load: merge")])
  /\ (truthy (kw_table kw) = true -> bk_connect B h target = inr tt ->
      Mssql.write B data target load_type kw h
      = (Ret data,
         h ++ [Connect target;
               Log CRITICAL ("Load type " +:+ load_type +:+
                 " is not supported. Current types of load: append, overwrite");
               Exit; Exit]))
  /\ (bk_connect B h target = inr tt ->
      Redshift.write B data target table load_type h
      = (Ret data,
         h ++ [Connect target;
               Log CRITICAL ("Load type " +:+ load_type +:+
                 " is not supported. Current types of load: append, overwrite");
               Exit; Exit]))
  /\ Dynamo.write B data target "overwrite" kw h
     = (Raise NotImplementedError,
        h ++ [Table target;
              Log ERROR "Overwrite method currently not implemented"])
  /\ (truthy (kw_table kw) = true -> bk_connect B h target = inr tt ->
      Mssql.write B data target "merge" kw h
      = (Raise NotImplementedError, h ++ [Connect target; Exit; Exit]) /\
      Mssql.write B data target "update" kw h
      = (Raise NotImplementedError, h ++ [Connect target; Exit; Exit]))
  /\ (forall strategy kw',
        truthy (kw_table kw') = false ->
        Mssql.write B data target strategy kw' h
        = (Raise ValueError,
           h ++ [Log ERROR
                   "No table specified. Add option --table=<table_name> to write"])).
Proof.
  intros Hu. destruct (unknown_strategy _ Hu) as (Ha & Ho & Hm & Hup).
  repeat split.
  7: { intros strategy kw' Ht. unfold Mssql.write. rewrite Ht. reflexivity. }
  - unfold Dynamo.write, Dynamo.connect. run.
    rewrite !bool_decide_eq_false_2 by done. by rewrite <- app_assoc.
  - intros Ht Hc. unfold Mssql.write, Mssql.connect. run.
    rewrite Ht. change (negb true) with false. cbv beta iota. rewrite Hc.
    rewrite !bool_decide_eq_false_2 by done. by rewrite <- !app_assoc.
  - intros Hc. unfold Redshift.write, Redshift.connect. run.
    rewrite Hc. rewrite !bool_decide_eq_false_2 by done.
    by rewrite <- !app_assoc.
  - unfold Dynamo.write, Dynamo.connect. run. simpl. by rewrite <- app_assoc.
  - unfold Mssql.write, Mssql.connect, Mssql._merge. run.
    rewrite H. change (negb true) with false. cbv beta iota. rewrite H0.
    simpl. by rewrite <- !app_assoc.
  - unfold Mssql.write, Mssql.connect, Mssql._update. run.
    rewrite H. change (negb true) with false. cbv beta iota. rewrite H0.
    simpl. by rewrite <- !app_assoc.
Qed.

(** The strategy [bogus] against a store that accepts everything. *)
Lemma write_dispatch_witness :
  Dynamo.write Fake.accept Fake.prices "db" "bogus" Fake.table_t []
  = (Ret tt,
     [Table "db";
      Log CRITICAL "Load type bogus is not supported. Current types of load: merge"])
  /\ (Mssql.write Fake.accept Fake.prices "db" "bogus" Fake.table_t []).1
     = Ret Fake.prices
  /\ (Redshift.write Fake.accept Fake.prices "db" "t" "bogus" []).1
     = Ret Fake.prices
  /\ (Dynamo.write Fake.accept Fake.prices "db" "overwrite" Fake.table_t []).1
     = Raise NotImplementedError
  /\ (Mssql.write Fake.accept Fake.prices "db" "merge" Fake.table_t []).1
     = Raise NotImplementedError
  /\ (Mssql.write Fake.accept Fake.prices "db" "append" no_kwargs []).1
     = Raise ValueError.
Proof.
  destruct (write_dispatch Fake.accept Fake.prices "db" "t" "bogus"
              Fake.table_t [] bogus_unknown)
    as (H1 & H2 & H3 & H4 & H5 & H6).
  split; [exact H1|].
  split; [rewrite H2; reflexivity|].
  split; [rewrite H3; reflexivity|].
  split; [rewrite H4; reflexivity|].
  split; [destruct H5 as [-> _]; reflexivity|].
  rewrite (H6 "append" no_kwargs); reflexivity.
Defined.

(** ** The expression builder *)

(** C8: for [key_spec = id] and
    [expr_spec = status=new_status,count=new_count] the builder yields
    exactly two bindings, [:a] for the first pair and [:b] for the second,
    in that order, and the key columns [{id}]. *)
Theorem expression_builder :
  let expression :=
    Dynamo.parse_expression "status=new_status,count=new_count" in
  Dynamo.ue_format expression = [("status", ":a"); ("count", ":b")]
  /\ Dynamo.eav_format expression
     = inr [("new_status", ":a"); ("new_count", ":b")]
  /\ Dynamo.ue expression = ["status = :a"; "count = :b"]
  /\ (list_to_set (Py.split "," "id") : gset string) = {["id"]}
  /\ length (Dynamo.ue_format expression) = 2%nat.
Proof.
  cbv zeta. repeat split.
Qed.

(** ** The type normalizer *)

(** C10: normalizing a dataset always succeeds, and normalizing the result
    again leaves it as it is. *)
Theorem normalize_idempotent (D : list record) :
  exists D', mapM Dynamo._encode D = inr D' /\
             mapM Dynamo._encode D' = inr D'.
Proof.
  exists (map (fmap encoded) D). rewrite !mapM_encode. split; [done|].
  f_equal. rewrite map_map. apply map_ext. intros item.
  rewrite <- map_fmap_compose. apply map_fmap_ext.
  intros k v _. apply encoded_idemp.
Qed.

(** ** Relational insert; merge and update on the key-value store *)

Lemma pick_id {A} (names : list string) (l : list A) :
  NoDup names -> length l = length names ->
  mjoin (map (fun n =>
    omap (fun '(c, x) => if bool_decide (c = n) then Some x else None)
         (zip names l)) names) = l.
Proof.
  intros Hnd. revert l. induction Hnd as [|a names Ha Hnd IH]; intros l Hl.
  - by destruct l.
  - destruct l as [|x l]; [done|]. simpl in Hl.
    simpl. rewrite bool_decide_eq_true_2 by done. simpl.
    assert (Hnone : omap (fun '(c, x0) => if bool_decide (c = a) then Some x0 else None)
                      (zip names l) = []).
    { clear -Ha. revert l. induction names as [|b names IHn]; intros l; [done|].
      destruct l as [|y l]; [done|]. simpl.
      rewrite bool_decide_eq_false_2.
      - apply IHn. intros Hin. apply Ha. by right.
      - intros ->. apply Ha. by left. }
    unfold omap in Hnone. rewrite Hnone. simpl. f_equal.
    etrans; [|apply (IH l); lia]. f_equal.
    apply map_ext_in. intros n Hn.
    rewrite bool_decide_eq_false_2; [done|].
    intros ->. apply Ha. by apply list_elem_of_In.
Qed.

Lemma getitem_names df : df_wf df -> getitem (df_names df) df = df.
Proof.
  intros [Hnd Hrows]. destruct df as [cols rows]. unfold getitem. simpl in *.
  f_equal.
  - apply pick_id; [done|]. unfold df_names. simpl. by rewrite length_fmap.
  - rewrite <- (map_id rows) at 2. apply map_ext_in. intros r Hr.
    apply pick_id; [done|]. unfold df_names. simpl. rewrite length_fmap.
    rewrite Forall_forall in Hrows. apply Hrows. by apply list_elem_of_In.
Qed.

Lemma df_names_length df : length (df_names df) = length (df_columns df).
Proof. unfold df_names. apply length_fmap. Qed.

Lemma setitem_wf name dt v df : df_wf df -> df_wf (setitem name dt v df).
Proof.
  intros [Hnd Hrows]. unfold setitem. case_bool_decide as Hin.
  - assert (Hn : df_names
        {| df_columns := zip (df_names df)
             (zip_with (fun c old => if bool_decide (c = name) then dt else old)
                (df_names df) (df_dtypes df));
           df_rows := map (zip_with (fun c old => if bool_decide (c = name) then v else old)
                             (df_names df)) (df_rows df) |} = df_names df).
    { unfold df_names at 1. simpl. apply fst_zip.
      rewrite length_zip_with. unfold df_names, df_dtypes.
      rewrite !length_fmap. lia. }
    split.
    + by rewrite Hn.
    + simpl. rewrite Forall_map. eapply Forall_impl; [exact Hrows|].
      intros r Hr. simpl. rewrite length_zip_with, length_zip, length_zip_with.
      unfold df_dtypes. rewrite df_names_length, !length_fmap.
      simpl in Hr. lia.
  - split.
    + unfold df_names. simpl. rewrite fmap_app. simpl.
      apply NoDup_app. repeat split.
      * exact Hnd.
      * intros x Hx Hx'. apply list_elem_of_singleton in Hx'. by subst.
      * apply NoDup_singleton.
    + simpl. rewrite Forall_map. eapply Forall_impl; [exact Hrows|].
      intros r Hr. simpl in *. rewrite !length_app. simpl. lia.
Qed.

Lemma setitem_fresh name dt v df :
  name ∉ df_names df ->
  setitem name dt v df
  = {| df_columns := df_columns df ++ [(name, dt)];
       df_rows := map (fun r => r ++ [v]) (df_rows df) |}.
Proof. intros H. unfold setitem. by rewrite bool_decide_eq_false_2. Qed.

Section Insert.

Variable B : backend.
Variables (data : DataFrame) (table : string) (h : list event).

Let data' :=
  setitem "insert_timestamp" "|O" (VStr (Py.strftime (bk_now B h))) data.

Let items := df_rows (getitem (df_names data') data').

Lemma Mssql_insert_run :
  let q := "INSERT INTO " +:+ table +:+ " (" +:+ Py.join "," (df_names data')
           +:+ ") VALUES (" +:+ Py.join "," (Mssql.options data') +:+ ")" in
  Mssql._insert B data table h
  = (Ret data',
     h ++ [Log DEBUG ("Executing SQL Query: " +:+ q);
           ExecuteMany q items;
           match bk_executemany B (h ++ [Log DEBUG ("Executing SQL Query: " +:+ q)])
                   q items with
           | inl ex => Log ERROR ("Error writing to table: " +:+ str_exn ex)
           | inr _ => Log INFO ("Wrote " +:+ str_len items
                                +:+ " records to MSSQL table: " +:+ table)
           end]).
Proof.
  intros q. unfold Mssql._insert, Mssql.columns. fold data' items q. run.
  destruct (bk_executemany B _ q items) as [ex|[]];
    by rewrite <- !app_assoc.
Qed.

Lemma Redshift_insert_run :
  let q := "INSERT INTO " +:+ table +:+ " (" +:+ Py.join "," (df_names data')
           +:+ ") VALUES (" +:+ Py.join "," (Redshift.options data') +:+ ")" in
  Redshift._insert B data table h
  = (Ret data',
     h ++ [Log DEBUG ("Executing SQL Query: " +:+ q);
           ExecuteMany q items;
           match bk_executemany B (h ++ [Log DEBUG ("Executing SQL Query: " +:+ q)])
                   q items with
           | inl ex => Log ERROR ("Error writing to table: " +:+ str_exn ex)
           | inr _ => Log INFO ("Wrote " +:+ str_len items
                                +:+ " records to MSSQL table: " +:+ table)
           end]).
Proof.
  intros q. unfold Redshift._insert, Redshift.columns. fold data' items q. run.
  destruct (bk_executemany B _ q items) as [ex|[]];
    by rewrite <- !app_assoc.
Qed.

End Insert.

Lemma prices_wf : df_wf Fake.prices.
Proof.
  split.
  - apply (bool_decide_unpack _). by vm_compute.
  - repeat constructor.
Qed.

(** C3 as stated fails: the relational insert hands the rows to the
    connector as they are; the float 19.99 arrives as a float, where the
    normalizer would have made it the decimal 19.99. *)
Lemma insert_normalizes_counterexample :
  (Mssql._insert Fake.accept Fake.prices "t" []).2
  = [Log DEBUG "Executing SQL Query: INSERT INTO t (sku,price,insert_timestamp) VALUES (%s,%d,%s)";
     ExecuteMany "INSERT INTO t (sku,price,insert_timestamp) VALUES (%s,%d,%s)"
       [[VStr "a"; VFloat Fake.f19_99; VStr "2024-03-07 09:05:00"];
        [VStr "b"; VFloat Fake.f19_99; VStr "2024-03-07 09:05:00"]];
     Log INFO "Wrote 2 records to MSSQL table: t"]
  /\ Dynamo.encode_value (VFloat Fake.f19_99)
     = inr (VDecimal (Py.DFinite false 1999 (-2)))
  /\ VFloat Fake.f19_99 <> VDecimal (Py.DFinite false 1999 (-2)).
Proof. repeat split. discriminate. Qed.

(** C3, amended: the relational insert (of [append], and of [overwrite]
    on MSSQL) first stamps the column [insert_timestamp] with the current
    time onto the dataset, then builds the multi-row [INSERT] from the
    stamped columns and executes it on the stamped rows; the cells
    themselves reach the connector unchanged. *)
Theorem insert_stamps B data table h :
  df_wf data ->
  let stamp := VStr (Py.strftime (bk_now B h)) in
  let data' := setitem "insert_timestamp" "|O" stamp data in
  let qm := "INSERT INTO " +:+ table +:+ " (" +:+ Py.join "," (df_names data')
            +:+ ") VALUES (" +:+ Py.join "," (Mssql.options data') +:+ ")" in
  let qr := "INSERT INTO " +:+ table +:+ " (" +:+ Py.join "," (df_names data')
            +:+ ") VALUES (" +:+ Py.join "," (Redshift.options data') +:+ ")" in
  (exists lvl msg,
     Mssql._insert B data table h
     = (Ret data',
        h ++ [Log DEBUG ("Executing SQL Query: " +:+ qm);
              ExecuteMany qm (df_rows data'); Log lvl msg])) /\
  (exists lvl msg,
     Redshift._insert B data table h
     = (Ret data',
        h ++ [Log DEBUG ("Executing SQL Query: " +:+ qr);
              ExecuteMany qr (df_rows data'); Log lvl msg])) /\
  ("insert_timestamp" ∉ df_names data ->
   df_names data' = df_names data ++ ["insert_timestamp"] /\
   df_rows data' = map (fun r => r ++ [stamp]) (df_rows data)).
Proof.
  intros Hwf stamp data' qm qr. repeat split.
  - rewrite (Mssql_insert_run B data table h). fold stamp data' qm.
    rewrite (getitem_names data') by apply setitem_wf, Hwf.
    destruct (bk_executemany B _ qm (df_rows data')); eauto.
  - rewrite (Redshift_insert_run B data table h). fold stamp data' qr.
    rewrite (getitem_names data') by apply setitem_wf, Hwf.
    destruct (bk_executemany B _ qr (df_rows data')); eauto.
  - subst data'. rewrite setitem_fresh by done.
    unfold df_names. simpl. by rewrite fmap_app.
  - subst data'. by rewrite setitem_fresh.
Qed.

(** The insert of two price rows. *)
Lemma insert_stamps_witness :
  (exists lvl msg,
     Mssql._insert Fake.accept Fake.prices "t" []
     = (Ret (mkDataFrame
               [("sku", "|O"); ("price", "<f8"); ("insert_timestamp", "|O")]
               [[VStr "a"; VFloat Fake.f19_99; VStr "2024-03-07 09:05:00"];
                [VStr "b"; VFloat Fake.f19_99; VStr "2024-03-07 09:05:00"]]),
        [Log DEBUG "Executing SQL Query: INSERT INTO t (sku,price,insert_timestamp) VALUES (%s,%d,%s)";
         ExecuteMany "INSERT INTO t (sku,price,insert_timestamp) VALUES (%s,%d,%s)"
           [[VStr "a"; VFloat Fake.f19_99; VStr "2024-03-07 09:05:00"];
            [VStr "b"; VFloat Fake.f19_99; VStr "2024-03-07 09:05:00"]];
         Log lvl msg])).
Proof.
  destruct (insert_stamps Fake.accept Fake.prices "t" [] prices_wf)
    as ((lvl & msg & H) & _).
  exists lvl, msg. exact H.
Defined.

Section Merge.

Variable B : backend.

Let put (item : record) (_ : unit) : M unit :=
  try_except
    (call (PutItem item) (fun h => bk_put_item B h item))
    (fun ex =>
       match message_of ex with
       | Some msg => emit (Print msg) ;; raise Exception
       | None => raise AttributeError
       end).

Lemma merge_loop_fails items : forall h i item ex,
  items !! i = Some item ->
  (forall j it, (j < i)%nat -> items !! j = Some it ->
     bk_put_item B (h ++ map PutItem (take j items)) it = inr tt) ->
  bk_put_item B (h ++ map PutItem (take i items)) item = inl ex ->
  for_ items tt put h
  = (Raise (match message_of ex with
            | Some _ => Exception
            | None => AttributeError
            end),
     h ++ map PutItem (take (S i) items)
       ++ match message_of ex with
          | Some msg => [Print msg]
          | None => []
          end).
Proof.
  induction items as [|it0 rest IH]; intros h i item ex Hi Hok Hfail; [done|].
  destruct i as [|i].
  - injection Hi as ->. simpl in Hfail. rewrite app_nil_r in Hfail.
    simpl. unfold put at 1. run. rewrite Hfail.
    destruct (message_of ex); simpl; by rewrite <- ?app_assoc.
  - simpl in Hi.
    assert (H0 : bk_put_item B h it0 = inr tt).
    { specialize (Hok O it0 ltac:(lia) eq_refl). simpl in Hok.
      by rewrite app_nil_r in Hok. }
    simpl for_. unfold put at 1, bind at 1, try_except, call. rewrite H0.
    rewrite (IH (h ++ [PutItem it0]) i item ex Hi).
    + simpl. by rewrite <- !app_assoc.
    + intros j it Hj Hit. specialize (Hok (S j) it ltac:(lia) Hit).
      simpl in Hok. by rewrite <- app_assoc.
    + simpl in Hfail. by rewrite <- app_assoc.
Qed.

Lemma merge_write_fails data table kw h i item ex :
  let items := map (fmap encoded) (to_dict data) in
  let h0 := h ++ [Table table;
                  Log INFO ("Starting " +:+ quoted "merge"
                            +:+ " write to DynamoDB")] in
  items !! i = Some item ->
  (forall j it, (j < i)%nat -> items !! j = Some it ->
     bk_put_item B (h0 ++ map PutItem (take j items)) it = inr tt) ->
  bk_put_item B (h0 ++ map PutItem (take i items)) item = inl ex ->
  Dynamo.write B data table "merge" kw h
  = (Raise (match message_of ex with
            | Some _ => Exception
            | None => AttributeError
            end),
     h0 ++ map PutItem (take (S i) items)
        ++ match message_of ex with
           | Some msg => [Print msg]
           | None => []
           end
        ++ [Exit]).
Proof.
  intros items h0 Hi Hok Hfail.
  unfold Dynamo.write, Dynamo.connect, Dynamo._merge.
  rewrite bool_decide_eq_true_2 by done.
  unfold log_method, log, emit, bind at 1 2 3 4, lift.
  rewrite mapM_encode. fold items. unfold ret at 1.
  unfold bind at 1, with_.
  rewrite <- app_assoc. simpl app at 1. fold h0.
  pose proof (merge_loop_fails items h0 i item ex Hi Hok Hfail) as Hloop.
  match goal with
  | |- context [for_ items tt ?f ?hh] =>
      change (for_ items tt f hh) with (for_ items tt put h0)
  end.
  rewrite Hloop. by rewrite <- !app_assoc.
Qed.

End Merge.

(** C5: when the store rejects the bulk insert, the relational writes log
    the error, commit and return; when the store rejects the put of the
    [i]-th record of a merge, the write raises, and exactly the records up
    to that one were put. *)
Theorem insert_swallowed_merge_propagated B data dbase table kw h ex i item :
  let items := map (fmap encoded) (to_dict data) in
  let h0 := h ++ [Table table;
                  Log INFO ("Starting " +:+ quoted "merge"
                            +:+ " write to DynamoDB")] in
  let failed := Log ERROR ("Error writing to table: " +:+ str_exn ex) in
  kw_table kw = Some table -> table <> EmptyString ->
  (forall h', bk_connect B h' dbase = inr tt) ->
  (forall h', bk_commit B h' = inr tt) ->
  (forall h' q rows, bk_executemany B h' q rows = inl ex) ->
  items !! i = Some item ->
  (forall j it, (j < i)%nat -> items !! j = Some it ->
     bk_put_item B (h0 ++ map PutItem (take j items)) it = inr tt) ->
  bk_put_item B (h0 ++ map PutItem (take i items)) item = inl ex ->
  (exists d tr, Mssql.write B data dbase "append" kw h = (Ret d, h ++ tr)
                /\ failed ∈ tr /\ Commit ∈ tr) /\
  (exists d tr, Mssql.write B data dbase "overwrite" kw h = (Ret d, h ++ tr)
                /\ failed ∈ tr /\ Commit ∈ tr) /\
  (exists d tr, Redshift.write B data dbase table "append" h = (Ret d, h ++ tr)
                /\ failed ∈ tr /\ Commit ∈ tr) /\
  Dynamo.write B data table "merge" kw h
  = (Raise (match message_of ex with
            | Some _ => Exception
            | None => AttributeError
            end),
     h0 ++ map PutItem (take (S i) items)
        ++ match message_of ex with
           | Some msg => [Print msg]
           | None => []
           end
        ++ [Exit]).
Proof.
  intros items h0 failed Htable Hne Hconn Hcommit Hreject Hi Hok Hfail.
  assert (Ht : truthy (kw_table kw) = true).
  { rewrite Htable. simpl. by rewrite bool_decide_eq_false_2. }
  repeat split.
  - unfold Mssql.write, Mssql.connect, Mssql._append.
    rewrite Ht, Htable. change (negb true) with false. cbv beta iota.
    rewrite bool_decide_eq_false_2, bool_decide_eq_true_2 by done.
    unfold log_method, log, emit, call, ret, with_, bind. rewrite Hconn.
    rewrite (Mssql_insert_run B data table). rewrite Hreject, Hcommit.
    eexists _, _. rewrite <- !app_assoc. split; [reflexivity|].
    simpl. split; set_solver.
  - unfold Mssql.write, Mssql.connect, Mssql._overwrite, Mssql._truncate.
    rewrite Ht, Htable. change (negb true) with false. cbv beta iota.
    rewrite !bool_decide_eq_false_2, bool_decide_eq_true_2 by done.
    unfold log_method, log, emit, call, ret, with_, try_except, bind.
    rewrite Hconn.
    destruct (bk_execute B _ _) as [ex'|[]].
    + rewrite (Mssql_insert_run B data table). rewrite Hreject, Hcommit.
      eexists _, _. rewrite <- !app_assoc. split; [reflexivity|].
      simpl. split; set_solver.
    + rewrite (Mssql_insert_run B data table). rewrite Hreject, Hcommit.
      eexists _, _. rewrite <- !app_assoc. split; [reflexivity|].
      simpl. split; set_solver.
  - unfold Redshift.write, Redshift.connect, Redshift._append.
    rewrite bool_decide_eq_false_2, bool_decide_eq_true_2 by done.
    unfold log_method, log, emit, call, ret, with_, bind. rewrite Hconn.
    rewrite (Redshift_insert_run B data table). rewrite Hreject, Hcommit.
    eexists _, _. rewrite <- !app_assoc. split; [reflexivity|].
    simpl. split; set_solver.
  - by apply (merge_write_fails B data table kw h i item ex).
Qed.

Lemma dict_of_pairs_nonempty_from (l : list (string * value)) (m : record) :
  l <> [] -> foldl (fun m p => <[p.1 := p.2]> m) m l <> ∅.
Proof.
  revert m. induction l as [|p l IH]; intros m Hl; [done|].
  simpl. destruct l as [|p' l'].
  - simpl. apply insert_non_empty.
  - by apply IH.
Qed.

Lemma dict_of_pairs_nonempty l : l <> [] -> dict_of_pairs l <> ∅.
Proof. apply dict_of_pairs_nonempty_from. Qed.

Lemma mapM_length {A C} (f : A -> exn + C) l l' :
  mapM f l = inr l' -> length l' = length l.
Proof.
  revert l'. induction l as [|x l IH]; intros l' H; simpl in H.
  - by injection H as <-.
  - destruct (f x); [done|]. destruct (mapM f l); [done|].
    injection H as <-. simpl. f_equal. by apply IH.
Qed.

Lemma eav_of_nonempty item it vals :
  it <> [] -> Dynamo.eav_of item it = inr vals -> vals <> ∅.
Proof.
  unfold Dynamo.eav_of. intros Hit H.
  destruct (mapM _ it) as [|ps] eqn:E; [done|]. injection H as <-.
  apply dict_of_pairs_nonempty. apply mapM_length in E.
  destruct ps; [|done]. destruct it; done.
Qed.

Lemma split_chars_nonempty sep cur cs : Py.split_chars sep cur cs <> [].
Proof.
  revert cur. induction cs as [|c cs IH]; intros cur; simpl; [done|].
  case_bool_decide; [done|apply IH].
Qed.

Lemma split_nonempty sep s : Py.split sep s <> [].
Proof.
  unfold Py.split. intros H. apply fmap_nil_inv in H.
  by apply split_chars_nonempty in H.
Qed.

Lemma eav_format_nonempty es eav :
  Dynamo.eav_format (Dynamo.parse_expression es) = inr eav -> eav <> [].
Proof.
  unfold Dynamo.eav_format, Dynamo.parse_expression. intros H.
  destruct (mapM _ _) as [|srcs] eqn:E; [done|]. injection H as <-.
  apply mapM_length in E. rewrite length_map in E.
  pose proof (split_nonempty "," es) as Hne.
  destruct srcs as [|s srcs]; [|done].
  simpl in E. destruct (Py.split "," es); done.
Qed.

Section UpdateLoop.

Variable B : backend.
Variable key : list string.
Variable u : string.

Let body (item : record) (it : list (string * string))
  : M (list (string * string)) :=
  let* k := lift (Dynamo.key_of item key) in
  let* vals := lift (Dynamo.eav_of item it) in
  call (UpdateItem k u vals) (fun h => bk_update_item B h k u vals) ;;
  ret [].

Lemma update_loop_drained items : forall h,
  exists new, (for_ items [] body h).2 = h ++ new /\
              Forall (fun m => m = ∅) (eavs_of new).
Proof.
  induction items as [|item rest IH]; intros h.
  - exists []. by rewrite app_nil_r.
  - simpl for_. unfold body at 1. run.
    destruct (Dynamo.key_of item key) as [ex|k].
    { exists []. by rewrite app_nil_r. }
    change (Dynamo.eav_of item []) with (inr (∅ : record) : exn + record).
    cbv beta iota.
    destruct (bk_update_item B h k u ∅) as [ex|[]].
    { exists [UpdateItem k u ∅]. split; [done|]. by repeat constructor. }
    destruct (IH (h ++ [UpdateItem k u ∅])) as (new & Hnew & Hall).
    exists (UpdateItem k u ∅ :: new). split.
    + fold body. rewrite Hnew. by rewrite <- app_assoc.
    + simpl. by constructor.
Qed.

Lemma update_loop_first items it : forall h,
  it <> [] ->
  exists new, (for_ items it body h).2 = h ++ new /\
    match eavs_of new with
    | [] => True
    | first :: later => first <> ∅ /\ Forall (fun m => m = ∅) later
    end.
Proof.
  intros h Hit. destruct items as [|item rest].
  - exists []. by rewrite app_nil_r.
  - simpl for_. unfold body at 1. run.
    destruct (Dynamo.key_of item key) as [ex|k].
    { exists []. by rewrite app_nil_r. }
    destruct (Dynamo.eav_of item it) as [ex|vals] eqn:Hvals.
    { exists []. by rewrite app_nil_r. }
    pose proof (eav_of_nonempty item it vals Hit Hvals) as Hne.
    cbv beta iota.
    destruct (bk_update_item B h k u vals) as [ex|[]].
    { exists [UpdateItem k u vals]. split; [done|]. simpl. by split. }
    destruct (update_loop_drained rest (h ++ [UpdateItem k u vals]))
      as (new & Hnew & Hall).
    exists (UpdateItem k u vals :: new). split.
    + fold body. rewrite Hnew. by rewrite <- app_assoc.
    + simpl. by split.
Qed.

Hypothesis Haccept : forall h k u v, bk_update_item B h k u v = inr tt.

Lemma update_loop_rest rest : forall h krest,
  mapM (fun item => Dynamo.key_of item key) rest = inr krest ->
  for_ rest [] body h
  = (Ret [], h ++ map (fun k => UpdateItem k u ∅) krest).
Proof.
  induction rest as [|item rest IH]; intros h krest Hk; simpl in Hk.
  - injection Hk as <-. simpl. unfold ret. by rewrite app_nil_r.
  - destruct (Dynamo.key_of item key) as [|k] eqn:Hkey; [done|].
    destruct (mapM _ rest) as [|ks] eqn:Hrest; [done|]. injection Hk as <-.
    simpl for_. unfold body at 1. run. rewrite Hkey.
    change (Dynamo.eav_of item []) with (inr (∅ : record) : exn + record).
    cbv beta iota. rewrite Haccept. fold body. rewrite (IH _ ks eq_refl).
    simpl. by rewrite <- app_assoc.
Qed.

End UpdateLoop.

(** C4: in every run of [_update] the first [update_item] call carries a
    non-empty attribute-value map and every later one an empty map; when
    the store accepts the calls and the columns are there, there is one
    call per record, so from the second record on the values are dropped. *)
Theorem update_bindings_drained B data table key expression h :
  (exists new,
     (Dynamo._update B data table key expression h).2 = h ++ new /\
     match eavs_of new with
     | [] => True
     | first :: later => first <> ∅ /\ Forall (fun m => m = ∅) later
     end) /\
  (forall ks es eav item1 rest k1 vals1 krest,
     key = Some ks -> expression = Some es ->
     (forall h' k u v, bk_update_item B h' k u v = inr tt) ->
     map (fmap encoded) (to_dict data) = item1 :: rest ->
     Dynamo.eav_format (Dynamo.parse_expression es) = inr eav ->
     Dynamo.key_of item1 (Py.split "," ks) = inr k1 ->
     Dynamo.eav_of item1 eav = inr vals1 ->
     mapM (fun item => Dynamo.key_of item (Py.split "," ks)) rest
     = inr krest ->
     let u := "set " +:+ Py.join "," (Dynamo.ue (Dynamo.parse_expression es)) in
     vals1 <> ∅ /\
     Dynamo._update B data table key expression h
     = (Ret tt,
        h ++ [Log INFO "Starting update to DynamoDB"; UpdateItem k1 u vals1]
          ++ map (fun k => UpdateItem k u ∅) krest
          ++ [Log INFO ("Updated " +:+ str_len (item1 :: rest)
                        +:+ " records in DynamoDB table: " +:+ table);
              Log INFO "DynamoDB update complete"])).
Proof.
  split.
  - unfold Dynamo._update. unfold log_method, log, emit, bind at 1 2 3 4 5 6 7.
    rewrite mapM_encode. unfold lift at 1, ret at 1.
    destruct key as [ks|]; [|exists [Log INFO "Starting update to DynamoDB"]; split; [done|by simpl]].
    unfold ret at 1.
    destruct expression as [es|]; [|exists [Log INFO "Starting update to DynamoDB"]; split; [done|by simpl]].
    unfold ret at 1.
    destruct (Dynamo.eav_format (Dynamo.parse_expression es)) as [ex|eav] eqn:Heav;
      [exists [Log INFO "Starting update to DynamoDB"]; split; [done|by simpl]|].
    unfold lift at 1, ret at 1.
    destruct (update_loop_first B (Py.split "," ks)
                ("set " +:+ Py.join "," (Dynamo.ue (Dynamo.parse_expression es)))
                (map (fmap encoded) (to_dict data)) eav
                (h ++ [Log INFO "Starting update to DynamoDB"])
                (eav_format_nonempty es eav Heav)) as (new & Hnew & Hall).
    simpl in Hnew.
    destruct (for_ _ eav _ _) as [[s| |] h'] eqn:Hfor; simpl in Hnew; subst h'.
    + eexists (_ :: new ++ [_; _]). unfold ret. simpl.
      split; [by rewrite <- !app_assoc|].
      unfold eavs_of in *. rewrite omap_app. simpl. by rewrite app_nil_r.
    + exists (Log INFO "Starting update to DynamoDB" :: new).
      split; [by rewrite <- app_assoc|done].
    + exists (Log INFO "Starting update to DynamoDB" :: new).
      split; [by rewrite <- app_assoc|done].
  - intros ks es eav item1 rest k1 vals1 krest -> -> Hacc Hitems Heav Hk1 Hv1 Hk u.
    split; [by apply (eav_of_nonempty item1 eav vals1 (eav_format_nonempty es eav Heav))|].
    unfold Dynamo._update. run.
    rewrite mapM_encode, Hitems. cbv beta iota. rewrite Heav. cbv beta iota.
    simpl for_. run. rewrite Hk1, Hv1. cbv beta iota. fold u. rewrite Hacc.
    rewrite (update_loop_rest B (Py.split "," ks) u Hacc rest _ krest Hk).
    unfold ret. by rewrite <- !app_assoc.
Qed.

(** Three orders: one call with values, two without. *)
Lemma update_bindings_drained_witness :
  exists tr,
    Dynamo._update Fake.accept Fake.orders "t" (Some "id")
      (Some "status=new_status,count=new_count") [] = (Ret tt, tr) /\
    match eavs_of tr with
    | [v1; v2; v3] => v1 <> ∅ /\ v2 = ∅ /\ v3 = ∅
    | _ => False
    end.
Proof.
  destruct (update_bindings_drained Fake.accept Fake.orders "t" (Some "id")
              (Some "status=new_status,count=new_count") []) as [_ H].
  edestruct H as [Hne Hrun]; try reflexivity.
  eexists. split; [exact Hrun|]. simpl. repeat split. exact Hne.
Defined.

(** A store that rejects every bulk insert and the second put. *)
Lemma insert_swallowed_merge_propagated_witness :
  (exists d tr,
     Mssql.write (Fake.rejecting 1 Fake.boom) Fake.orders "db" "append"
                 Fake.table_t [] = (Ret d, tr)) /\
  (exists tr,
     Dynamo.write (Fake.rejecting 1 Fake.boom) Fake.orders "t" "merge"
                  Fake.table_t [] = (Raise AttributeError, tr) /\
     length (puts_of tr) = 2%nat /\ length (df_rows Fake.orders) = 3%nat).
Proof.
  edestruct (insert_swallowed_merge_propagated (Fake.rejecting 1 Fake.boom)
               Fake.orders "db" "t" Fake.table_t [] Fake.boom 1)
    as ((d & tr & Ha & _) & _ & _ & Hm); try reflexivity.
  - done.
  - intros j it Hj _. assert (j = O) as -> by lia. reflexivity.
  - split.
    + exists d, tr. exact Ha.
    + eexists. split; [exact Hm|]. split; reflexivity.
Defined.

(** ** float.__repr__ reads back as the float *)

Section FloatRepr.

Local Open Scope Q_scope.































End FloatRepr.

(** ** What the normalizer does to each kind of value *)







(** ** Records with cells outside the data model *)

Lemma encode_cell_encoded c :
  is_bool c = false -> Raw.encode_cell c = inr (encoded_cell c).
Proof.
  intros Hc. destruct c as [v|b|o]; simpl; [|done..].
  by rewrite encode_value_encoded.
Qed.

Lemma encode_cell_bool b : Raw.encode_cell (Raw.Bool b) = inl InvalidOperation.
Proof. by destruct b. Qed.

Lemma encode_cell_raises c ex : Raw.encode_cell c = inl ex -> ex = InvalidOperation.
Proof.
  destruct c as [v|b|o]; simpl.
  - by rewrite encode_value_encoded.
  - destruct (Py.Decimal_of_str _); [done|]. by intros [= <-].
  - done.
Qed.

Section RawFold.

Let F (k : string) (v : Raw.cell) (acc : exn + gmap string Raw.cell)
  : exn + gmap string Raw.cell :=
  match acc with
  | inl ex => inl ex
  | inr it =>
      match Raw.encode_cell v with
      | inl ex => inl ex
      | inr v' => inr (<[k := v']> it)
      end
  end.

Lemma Raw_fold_ok (base item : gmap string Raw.cell) :
  no_bool item ->
  map_fold F (inr base) item = inr ((encoded_cell <$> item) ∪ base).
Proof.
  induction item as [|k v item Hk Hfold IH] using map_first_key_ind;
    intros Hnb.
  - rewrite map_fold_empty, fmap_empty. by rewrite (left_id_L ∅ (∪)).
  - rewrite map_fold_insert_first_key by done.
    rewrite IH.
    + unfold F; cbv beta iota. rewrite encode_cell_encoded.
      * by rewrite fmap_insert, insert_union_l.
      * apply (Hnb k v). by rewrite lookup_insert_eq.
    + intros k' c Hk'. apply (Hnb k' c).
      rewrite lookup_insert_ne; [done|]. intros ->. congruence.
Qed.

Lemma Raw_fold_cases (base item : gmap string Raw.cell) :
  (exists it, map_fold F (inr base) item = inr it) \/
  map_fold F (inr base) item = inl InvalidOperation.
Proof.
  induction item as [|k v item Hk Hfold IH] using map_first_key_ind.
  - left. exists base. by rewrite map_fold_empty.
  - rewrite map_fold_insert_first_key by done.
    destruct IH as [[it ->]| ->]; [|by right].
    unfold F; cbv beta iota. destruct (Raw.encode_cell v) as [ex|v'] eqn:Hv.
    + right. f_equal. by apply (encode_cell_raises v).
    + left. by eexists.
Qed.

Lemma Raw_fold_bool (base item : gmap string Raw.cell) k b :
  item !! k = Some (Raw.Bool b) ->
  map_fold F (inr base) item = inl InvalidOperation.
Proof.
  induction item as [|i x item Hi Hfold IH] using map_first_key_ind;
    intros Hk; [done|].
  rewrite map_fold_insert_first_key by done.
  destruct (decide (i = k)) as [->|Hne].
  - rewrite lookup_insert_eq in Hk. injection Hk as ->.
    destruct (Raw_fold_cases base item) as [[it ->]| ->]; [|done].
    unfold F; cbv beta iota. by rewrite encode_cell_bool.
  - rewrite lookup_insert_ne in Hk by done. by rewrite (IH Hk).
Qed.

End RawFold.

Lemma Raw_encode_ok (item : gmap string Raw.cell) :
  no_bool item -> Raw._encode item = inr (encoded_cell <$> item).
Proof.
  intros Hnb. unfold Raw._encode. rewrite Raw_fold_ok by done. f_equal.
  apply map_eq. intros k. rewrite lookup_union, lookup_fmap.
  by destruct (item !! k).
Qed.

Lemma Raw_encode_bool (item : gmap string Raw.cell) k b :
  item !! k = Some (Raw.Bool b) -> Raw._encode item = inl InvalidOperation.
Proof. intros Hk. unfold Raw._encode. by apply (Raw_fold_bool item item k b). Qed.

Lemma Raw_encode_data (item : record) :
  Raw._encode (Raw.Data <$> item) = inr (Raw.Data <$> (encoded <$> item)).
Proof.
  rewrite Raw_encode_ok.
  - f_equal. rewrite <- !map_fmap_compose. done.
  - intros k c. rewrite lookup_fmap. destruct (item !! k); [|done].
    by intros [= <-].
Qed.

Lemma encoded_cell_kept c :
  is_bool c = false -> is_kept (encoded_cell c) = true.
Proof.
  intros Hc. destruct c as [v|b|o]; simpl; [|done..].
  destruct v as [|n|f|d|s|t]; try done. destruct f as [s|s| |s m e]; try done.
  simpl. destruct (Py.float_digits m e) as [ds dp].
  by destruct (repr_decimal ds dp).
Qed.

Lemma encoded_cell_fixed c : is_kept c = true -> encoded_cell c = c.
Proof. destruct c as [v|b|o]; try done. simpl. by destruct v. Qed.

(** ** The repr of a float is a shortest decimal that reads back *)

Section ShortestGrid.

Local Open Scope Q_scope.
















End ShortestGrid.

Section Magnitude.

Local Open Scope Q_scope.








End Magnitude.




Section ShortestDigits.

Local Open Scope Q_scope.




End ShortestDigits.




(** ** The normalizer, kind by kind *)





(** ** Further properties

    *** A merge the store accepts *)
Lemma dict_of_pairs_fmap_from (f : value -> value) (l : list (string * value)) (m : record) :
  f <$> foldl (fun m p => <[p.1 := p.2]> m) m l
  = foldl (fun m p => <[p.1 := p.2]> m) (f <$> m) (map (prod_map id f) l).
Proof.
  revert m. induction l as [|[k v] l IH]; intros m; [done|].
  simpl. rewrite IH. by rewrite fmap_insert.
Qed.

Lemma zip_map_r {A C D} (f : C -> D) (l : list A) (k : list C) :
  zip l (map f k) = map (prod_map id f) (zip l k).
Proof.
  revert k. induction l as [|a l IH]; intros [|c k]; simpl; [done..|].
  by rewrite IH.
Qed.

Lemma to_dict_encoded data :
  map (fmap encoded) (to_dict data)
  = map (fun r => dict_of_pairs (zip (df_names data) (map encoded r)))
        (df_rows data).
Proof.
  unfold to_dict. rewrite map_map. apply map_ext. intros r.
  unfold dict_of_pairs. rewrite dict_of_pairs_fmap_from, fmap_empty.
  by rewrite zip_map_r.
Qed.

Section MergeOk.
Variable B : backend.
Hypothesis Haccept : forall h item, bk_put_item B h item = inr tt.

Lemma merge_loop_accepts items : forall h,
  for_ items tt (fun item _ =>
          try_except
            (call (PutItem item) (fun h => bk_put_item B h item))
            (fun ex =>
               match message_of ex with
               | Some msg => emit (Print msg) ;; raise Exception
               | None => raise AttributeError
               end)) h
  = (Ret tt, h ++ map PutItem items).
Proof.
  induction items as [|it rest IH]; intros h.
  - simpl. unfold ret. by rewrite app_nil_r.
  - simpl for_. unfold bind at 1, try_except at 1, call at 1.
    rewrite Haccept. rewrite IH. simpl. by rewrite <- app_assoc.
Qed.
End MergeOk.

(** X1: when the store accepts every put, a merge write puts one record
    per row of the frame, in row order, each mapping the columns to the
    normalized cells of the row, leaves the batch writer, logs the number of
    rows and returns. *)
Theorem merge_puts_every_row B data table kw h :
  (forall h' item, bk_put_item B h' item = inr tt) ->
  let items := map (fun r => dict_of_pairs
                               (zip (df_names data) (map encoded r)))
                   (df_rows data) in
  Dynamo.write B data table "merge" kw h
  = (Ret tt,
     h ++ [Table table;
           Log INFO ("Starting " +:+ quoted "merge" +:+ " write to DynamoDB")]
       ++ map PutItem items
       ++ [Exit;
           Log INFO ("Wrote " +:+ str_len (df_rows data)
                     +:+ " records to DynamoDB table: " +:+ table);
           Log INFO "DynamoDB merge complete"]).
Proof.
  intros Haccept items.
  unfold Dynamo.write, Dynamo.connect, Dynamo._merge.
  rewrite bool_decide_eq_true_2 by done.
  unfold log_method, log, emit, bind at 1 2 3 4, lift.
  rewrite mapM_encode, to_dict_encoded. fold items. unfold ret at 1.
  unfold bind at 1 2 3, with_.
  rewrite (merge_loop_accepts B Haccept).
  unfold bind, ret, str_len. subst items. rewrite !length_map.
  by rewrite <- !app_assoc.
Qed.

(** *** Scans: the whole table, a failing page, a limit that is not positive *)
Lemma more_pages_all lim count pages :
  Z.of_nat (count + length (concat pages)) <= lim ->
  more_pages lim count pages = length pages.
Proof.
  revert count. induction pages as [|p rest IH]; intros count; simpl; [done|].
  rewrite length_app. intros H.
  destruct (Z.gtb_spec (Z.of_nat count) lim) as [Hgt|Hle]; [lia|].
  f_equal. apply IH. lia.
Qed.

Lemma slice_to_all {A} n (l : list A) :
  Z.of_nat (length l) <= n -> Py.slice_to n l = l.
Proof.
  intros H. unfold Py.slice_to.
  destruct (Z.leb_spec 0 n); [|lia]. apply firstn_all2. lia.
Qed.

(** X2: when the table holds no more items than the limit (or
    [sys.maxsize] without one), a scan reads every page, one request per
    page, returns all items in order uncut, and logs no critical entry. *)
Theorem read_whole_table B fuel table kw h r0 rest :
  truthy (kw_query_type kw) = false ->
  serves B (if truthy (kw_query kw) then kw_query kw else None) None
         (r0 :: rest) ->
  (length rest <= fuel)%nat ->
  Z.of_nat (length (concat (map Items (r0 :: rest))))
    <= default Py.maxsize (kw_limit kw) ->
  let params := if truthy (kw_query kw) then kw_query kw else None in
  let items := concat (map Items (r0 :: rest)) in
  Dynamo.read B fuel table kw h
  = (Ret items,
     h ++ [Log INFO "Starting read from DynamoDB"; Table table;
           Scan None params]
       ++ map (fun r => Scan (LastEvaluatedKey r) params)
              (take (length rest) (r0 :: rest))
       ++ [Log INFO ("Dynamo scan produced " +:+ str_len items
                     +:+ " results from " +:+ table);
           Log INFO "DynamoDB read complete"]).
Proof.
  intros Hqt Hserves Hfuel Hlim params items.
  rewrite (read_serves B fuel table kw h r0 rest Hqt Hserves Hfuel).
  assert (Hall : more_pages (default Py.maxsize (kw_limit kw))
                   (length (Items r0)) (map Items rest) = length rest).
  { rewrite more_pages_all; [by rewrite length_map|].
    simpl in Hlim. rewrite length_app in Hlim. exact Hlim. }
  rewrite Hall.
  rewrite (firstn_all2 (r0 :: rest)) by (simpl; lia).
  rewrite bool_decide_eq_false_2 by lia.
  fold items.
  assert (Hcut : (if truthy_int (kw_limit kw)
                  then Py.slice_to (default 0 (kw_limit kw)) items
                  else items) = items).
  { destruct (kw_limit kw) as [n|]; [|done]. simpl.
    destruct (n =? 0); [done|]. apply slice_to_all. exact Hlim. }
  rewrite Hcut. done.
Qed.

Section ScanRaises.
Variable B : backend.
Variable params : option string.
Variable limit : option Z.
Variable ex : exn.

Lemma scan_loop_raises rest : forall r items fuel h,
  is_Some (LastEvaluatedKey r) ->
  raises_after B params (LastEvaluatedKey r) rest ex ->
  Z.of_nat (length items + length (concat (map Items rest)))
    <= default Py.maxsize limit ->
  (length rest < fuel)%nat ->
  Dynamo.scan_loop B fuel params limit r items h
  = (Raise ex,
     h ++ map (fun r' => Scan (LastEvaluatedKey r') params) (r :: rest)).
Proof.
  induction rest as [|r1 rest' IH]; intros r items fuel h [k Hk] Hs Hlim Hfuel;
    (destruct fuel as [|n]; [simpl in Hfuel; lia|]);
    simpl Dynamo.scan_loop; rewrite Hk;
    (destruct (Z.gtb_spec (Z.of_nat (length items)) (default Py.maxsize limit))
       as [Hgt|_]; [simpl in Hlim; lia|]);
    unfold bind, call; rewrite <- Hk.
  - simpl in Hs. by rewrite Hs.
  - destruct Hs as (Hscan & Hkey & Hrest). rewrite Hscan.
    rewrite (IH r1 (items ++ Items r1) n); [|exact Hkey|exact Hrest| |].
    + simpl. by rewrite <- app_assoc.
    + simpl in Hlim. rewrite length_app in *. lia.
    + simpl in Hfuel. lia.
Qed.
End ScanRaises.

(** X3: when a scan request raises after some pages came with a key, and
    the items held stay within the limit, [read] raises that exception
    after exactly those requests: no item is returned and the completion
    entries are not logged. *)
Theorem read_scan_failure B fuel table kw h resps ex :
  truthy (kw_query_type kw) = false ->
  let params := if truthy (kw_query kw) then kw_query kw else None in
  raises_after B params None resps ex ->
  Z.of_nat (length (concat (map Items resps)))
    <= default Py.maxsize (kw_limit kw) ->
  (length resps <= fuel)%nat ->
  Dynamo.read B fuel table kw h
  = (Raise ex,
     h ++ [Log INFO "Starting read from DynamoDB"; Table table;
           Scan None params]
       ++ map (fun r => Scan (LastEvaluatedKey r) params) resps).
Proof.
  intros Hqt params Hs Hlim Hfuel.
  unfold Dynamo.read, Dynamo.connect. run. rewrite Hqt.
  change (negb false) with true. cbv beta iota. fold params.
  destruct resps as [|r0 rest].
  - simpl in Hs. rewrite Hs. simpl. by rewrite <- !app_assoc.
  - destruct Hs as (Hscan & Hkey & Hrest). rewrite Hscan.
    rewrite (scan_loop_raises B params (kw_limit kw) ex rest r0 (Items r0) fuel);
      [|exact Hkey|exact Hrest| |].
    + by rewrite <- !app_assoc.
    + simpl in Hlim. rewrite length_app in Hlim. lia.
    + simpl in Hfuel. lia.
Qed.

(** X4: with a limit that is zero or negative and below the size of the
    first page, [read] requests the first page only; a zero limit is not
    applied as a cut, so the whole page comes back, and a negative one drops
    the last [-limit] items of the page. *)
Theorem read_limit_not_positive B fuel table kw h r0 rest n :
  truthy (kw_query_type kw) = false ->
  kw_limit kw = Some n ->
  n <= 0 ->
  n < Z.of_nat (length (Items r0)) ->
  serves B (if truthy (kw_query kw) then kw_query kw else None) None
         (r0 :: rest) ->
  let params := if truthy (kw_query kw) then kw_query kw else None in
  let items :=
    if n =? 0 then Items r0
    else take (length (Items r0) - Z.to_nat (- n)) (Items r0) in
  Dynamo.read B fuel table kw h
  = (Ret items,
     h ++ [Log INFO "Starting read from DynamoDB"; Table table;
           Scan None params]
       ++ (if bool_decide (rest = []) then []
           else [Log CRITICAL "Stopping read iteration"])
       ++ [Log INFO ("Dynamo scan produced " +:+ str_len items
                     +:+ " results from " +:+ table);
           Log INFO "DynamoDB read complete"]).
Proof.
  intros Hqt Hn Hle Hlt [Hscan Hrest] params items.
  unfold Dynamo.read, Dynamo.connect. run. rewrite Hqt.
  change (negb false) with true. cbv beta iota. fold params.
  rewrite Hscan, Hn.
  assert (Hloop : forall hh,
    Dynamo.scan_loop B fuel params (Some n) r0 (Items r0) hh
    = (Ret (Items r0),
       hh ++ (if bool_decide (rest = []) then []
              else [Log CRITICAL "Stopping read iteration"]))).
  { intros hh. destruct rest as [|r1 rest'].
    - rewrite bool_decide_eq_true_2 by done. rewrite app_nil_r.
      destruct fuel; simpl; by rewrite Hrest.
    - rewrite bool_decide_eq_false_2 by done.
      destruct Hrest as [[k Hk] _].
      destruct fuel; simpl; rewrite Hk;
        (destruct (Z.gtb_spec (Z.of_nat (length (Items r0))) n); [done|lia]). }
  rewrite Hloop. unfold truthy_int. simpl default.
  assert (Hcut : (if negb (n =? 0) then Py.slice_to n (Items r0)
                  else Items r0) = items).
  { subst items. destruct (Z.eqb_spec n 0) as [->|Hne]; [done|].
    simpl. unfold Py.slice_to. destruct (Z.leb_spec 0 n); [lia|done]. }
  rewrite Hcut. by rewrite <- !app_assoc.
Qed.

(** *** Queries by type, and where a relational write commits *)
(** X5: with a [query_type] option set, [read] logs an error and raises
    [NotImplementedError] without sending a request to the store. *)
Theorem read_query_type B fuel table kw h :
  truthy (kw_query_type kw) = true ->
  Dynamo.read B fuel table kw h
  = (Raise NotImplementedError,
     h ++ [Log INFO "Starting read from DynamoDB"; Table table;
           Log ERROR "DynamoDB query currently not implemented"]).
Proof.
  intros Hqt. unfold Dynamo.read, Dynamo.connect. run. rewrite Hqt.
  change (negb true) with false. cbv beta iota. by rewrite <- !app_assoc.
Qed.

Section MssqlLoad.

Variable B : backend.
Variables (data : DataFrame) (dbase : string) (kw : kwargs).
Variable h : list event.
Hypothesis Ht : truthy (kw_table kw) = true.
Hypothesis Hc : bk_connect B h dbase = inr tt.

Lemma Mssql_append_trace :
  exists s q items lvl msg,
    (Mssql.write B data dbase "append" kw h).2
    = h ++ [Connect dbase;
            Log INFO ("Starting " +:+ quoted "append" +:+ " write to MSSQL");
            Log DEBUG s; ExecuteMany q items; Log lvl msg;
            Log INFO "MSSQL append complete"; Commit; Exit; Exit].
Proof.
  unfold Mssql.write. rewrite Ht. change (negb true) with false.
  cbv beta iota.
  rewrite (bool_decide_eq_false_2 ("append" = "merge")) by done.
  rewrite (bool_decide_eq_true_2 ("append" = "append")) by done.
  unfold Mssql.connect, with_, bind at 1, call at 1. rewrite Hc.
  unfold Mssql._append, log_method, log, emit, bind at 1 2 3 4.
  rewrite Mssql_insert_run.
  match goal with
  | |- context [bk_executemany B ?hh ?q ?items] =>
      destruct (bk_executemany B hh q items) as [e|[]]
  end; eexists _, _, _, _, _; unfold bind, ret, call;
    destruct (bk_commit B _); cbv beta iota; unfold snd;
    rewrite <- !app_assoc; reflexivity.
Qed.

Lemma Mssql_overwrite_trace :
  exists mid s q items lvl msg,
    (Mssql.write B data dbase "overwrite" kw h).2
    = h ++ [Connect dbase;
            Log INFO ("Starting " +:+ quoted "overwrite"
                      +:+ " write to MSSQL");
            Execute ("TRUNCATE TABLE " +:+ default EmptyString (kw_table kw))]
        ++ mid
        ++ [Log DEBUG s; ExecuteMany q items; Log lvl msg;
            Log INFO "MSSQL overwrite complete"; Commit; Exit; Exit]
    /\ (mid = [] \/ exists m, mid = [Log ERROR m]).
Proof.
  unfold Mssql.write. rewrite Ht. change (negb true) with false.
  cbv beta iota.
  rewrite (bool_decide_eq_false_2 ("overwrite" = "merge")) by done.
  rewrite (bool_decide_eq_false_2 ("overwrite" = "append")) by done.
  rewrite (bool_decide_eq_true_2 ("overwrite" = "overwrite")) by done.
  unfold Mssql.connect, with_, bind at 1, call at 1. rewrite Hc.
  unfold Mssql._overwrite, log_method, log, emit, bind at 1 2 3 4 5.
  unfold Mssql._truncate, try_except at 1, call at 1.
  match goal with
  | |- context [bk_execute B ?hh ?q] =>
      destruct (bk_execute B hh q) as [e|[]]
  end; unfold log, emit; rewrite Mssql_insert_run;
  match goal with
  | |- context [bk_executemany B ?hh ?q ?items] =>
      destruct (bk_executemany B hh q items) as [e'|[]]
  end;
  [eexists [_]|eexists [_]|exists []|exists []];
  eexists _, _, _, _, _;
  (split; [unfold bind, ret, call; destruct (bk_commit B _);
           cbv beta iota; unfold snd; rewrite <- !app_assoc; reflexivity|]);
  eauto.
Qed.

End MssqlLoad.

(** X13: once connected, an MSSQL write commits exactly for [append] and
    [overwrite]: there the commit is the last call before the contexts are
    left and follows the bulk insert; for any other strategy nothing is sent
    between connecting and leaving. *)
Theorem commit_closes_load B data dbase load_type kw h :
  truthy (kw_table kw) = true ->
  bk_connect B h dbase = inr tt ->
  exists new,
    (Mssql.write B data dbase load_type kw h).2
    = h ++ [Connect dbase] ++ new ++ [Exit; Exit] /\
    if bool_decide (load_type = "append" \/ load_type = "overwrite") then
      exists pre q items,
        new = pre ++ [Commit] /\ (Commit ∉ pre) /\ (ExecuteMany q items ∈ pre)
    else Forall (fun ev => is_network ev = false) new.
Proof.
  intros Ht Hc.
  destruct (decide (load_type = "append")) as [->|Ha].
  { destruct (Mssql_append_trace B data dbase kw h Ht Hc)
      as (s & q & items & lvl & msg & ->).
    rewrite bool_decide_eq_true_2 by (by left).
    eexists ([_; _; _; _; _] ++ [Commit]). split; [reflexivity|].
    eexists _, q, items. split; [reflexivity|]. split.
    - rewrite !not_elem_of_cons. repeat (split; [discriminate|]).
      apply not_elem_of_nil.
    - do 2 right. left. }
  destruct (decide (load_type = "overwrite")) as [->|Ho].
  { destruct (Mssql_overwrite_trace B data dbase kw h Ht Hc)
      as (mid & s & q & items & lvl & msg & -> & Hmid).
    rewrite bool_decide_eq_true_2 by (by right).
    destruct Hmid as [->|[m ->]].
    - eexists ([_; _; _; _; _; _] ++ [Commit]). split; [reflexivity|].
      eexists _, q, items. split; [reflexivity|]. split.
      + rewrite !not_elem_of_cons. repeat (split; [discriminate|]).
        apply not_elem_of_nil.
      + do 3 right. left.
    - eexists ([_; _; _; _; _; _; _] ++ [Commit]). split; [reflexivity|].
      eexists _, q, items. split; [reflexivity|]. split.
      + rewrite !not_elem_of_cons. repeat (split; [discriminate|]).
        apply not_elem_of_nil.
      + do 4 right. left. }
  rewrite bool_decide_eq_false_2 by (intros [?|?]; done).
  unfold Mssql.write. rewrite Ht. change (negb true) with false.
  cbv beta iota.
  unfold Mssql.connect, with_, bind at 1, call at 1. rewrite Hc.
  rewrite (bool_decide_eq_false_2 (load_type = "append")) by done.
  rewrite (bool_decide_eq_false_2 (load_type = "overwrite")) by done.
  case_bool_decide as Hm.
  { exists []. split; [unfold Mssql._merge; run; by rewrite <- !app_assoc|].
    constructor. }
  case_bool_decide as Hu.
  { exists []. split; [unfold Mssql._update; run; by rewrite <- !app_assoc|].
    constructor. }
  eexists [_]. split; [run; by rewrite <- !app_assoc|]. by repeat constructor.
Qed.

(** *** The bindings of an update *)
Lemma placeholders_length : length Dynamo.placeholders = 26%nat.
Proof. reflexivity. Qed.

Lemma placeholders_NoDup : NoDup Dynamo.placeholders.
Proof. apply (bool_decide_unpack (NoDup Dynamo.placeholders)). vm_compute. exact I. Qed.

Lemma snd_zip_take {A C} (l : list A) (k : list C) :
  (zip l k).*2 = take (length l) k.
Proof.
  revert k. induction l as [|a l IH]; intros [|c k]; simpl; [done..|].
  by rewrite IH.
Qed.

Lemma fst_zip_take {A C} (l : list A) (k : list C) :
  (zip l k).*1 = take (length k) l.
Proof.
  revert k. induction l as [|a l IH]; intros [|c k]; simpl; [done..|].
  by rewrite IH.
Qed.

Lemma take_NoDup {A} (l : list A) n : NoDup l -> NoDup (take n l).
Proof.
  intros H. rewrite <- (take_drop n l) in H. by apply NoDup_app in H as [? _].
Qed.

Lemma eav_format_zip expression eav :
  Dynamo.eav_format expression = inr eav ->
  exists srcs, eav = zip srcs Dynamo.placeholders /\
               length srcs = length expression.
Proof.
  unfold Dynamo.eav_format.
  destruct (mapM _ expression) as [|srcs] eqn:Hm; [done|].
  intros [= <-]. exists srcs. split; [done|].
  eapply mapM_length, Hm.
Qed.

(** X6: the builder makes one binding per pair of the expression up to 26,
    the number of lowercase letters, and drops the pairs beyond; the
    placeholders are pairwise distinct, and the value bindings use the same
    placeholders as the update expression, position by position. *)
Theorem bindings_capacity (es : string) :
  let expression := Dynamo.parse_expression es in
  let pairs := length (Py.split "," es) in
  length (Dynamo.ue expression) = Nat.min pairs 26 /\
  (Dynamo.ue_format expression).*2 = take pairs Dynamo.placeholders /\
  NoDup (Dynamo.ue_format expression).*2 /\
  forall eav, Dynamo.eav_format expression = inr eav ->
    length eav = Nat.min pairs 26 /\
    eav.*2 = (Dynamo.ue_format expression).*2.
Proof.
  intros expression pairs.
  assert (Hlen : length expression = pairs).
  { unfold expression, Dynamo.parse_expression. by rewrite length_map. }
  assert (Hue : (Dynamo.ue_format expression).*2
                = take pairs Dynamo.placeholders).
  { unfold Dynamo.ue_format. by rewrite snd_zip_take, length_map, Hlen. }
  repeat split.
  - unfold Dynamo.ue, Dynamo.ue_format.
    by rewrite length_map, length_zip, length_map, Hlen, placeholders_length.
  - exact Hue.
  - rewrite Hue. apply take_NoDup, placeholders_NoDup.
  - apply eav_format_zip in H as (srcs & -> & Hs).
    by rewrite length_zip, Hs, Hlen, placeholders_length.
  - apply eav_format_zip in H as (srcs & -> & Hs).
    by rewrite Hue, snd_zip_take, Hs, Hlen.
Qed.

(** [dict(pairs)] read back. *)
Lemma dict_of_pairs_list_to_map (l : list (string * value)) :
  dict_of_pairs l = list_to_map (reverse l).
Proof.
  unfold dict_of_pairs.
  assert (H : forall m : record,
             foldl (fun m p => <[p.1 := p.2]> m) m l
             = foldr (fun p m => <[p.1 := p.2]> m) m (reverse l)).
  { induction l as [|p l IH]; intros m; [done|].
    simpl. rewrite reverse_cons, foldr_app. simpl. apply IH. }
  rewrite H. generalize (reverse l). intros k.
  induction k as [|[a b] k IH]; [done|]. simpl. by rewrite IH.
Qed.

Lemma dict_of_pairs_lookup (l : list (string * value)) k v :
  NoDup l.*1 -> (k, v) ∈ l -> dict_of_pairs l !! k = Some v.
Proof.
  intros Hnd Hin. rewrite dict_of_pairs_list_to_map.
  apply elem_of_list_to_map_1.
  - by rewrite fmap_reverse, reverse_Permutation.
  - by apply elem_of_reverse.
Qed.

Lemma dict_of_pairs_lookup_None (l : list (string * value)) k :
  k ∉ l.*1 -> dict_of_pairs l !! k = None.
Proof.
  intros Hk. rewrite dict_of_pairs_list_to_map.
  apply not_elem_of_list_to_map_1. rewrite fmap_reverse.
  by rewrite elem_of_reverse.
Qed.

Lemma dict_of_pairs_lookup_Some (l : list (string * value)) k :
  k ∈ l.*1 -> is_Some (dict_of_pairs l !! k).
Proof.
  intros Hk. rewrite dict_of_pairs_list_to_map.
  destruct (list_to_map (reverse l) !! k) eqn:E; [by eexists|].
  apply not_elem_of_list_to_map_2 in E. rewrite fmap_reverse in E.
  by rewrite elem_of_reverse in E.
Qed.

(** The pairs a comprehension over [item] builds. *)
Lemma getkey_pairs {A} (item : record) (src dst : A -> string) it ps :
  mapM (fun z => match Dynamo.getkey item (src z) with
                 | inl ex => inl ex
                 | inr v => inr (dst z, v)
                 end) it = inr ps ->
  ps.*1 = map dst it /\
  forall z, z ∈ it -> exists v, item !! src z = Some v /\ (dst z, v) ∈ ps.
Proof.
  revert ps. induction it as [|z it IH]; intros ps H; simpl in H.
  - injection H as <-. split; [done|]. intros z Hz. by apply elem_of_nil in Hz.
  - unfold Dynamo.getkey at 1 in H.
    destruct (item !! src z) as [v|] eqn:Hv; [|done].
    destruct (mapM _ it) as [|ps'] eqn:Hps; [done|]. injection H as <-.
    destruct (IH ps' eq_refl) as [Hfst Hall]. split.
    + rewrite fmap_cons. simpl. by rewrite Hfst.
    + intros z' Hz'. apply elem_of_cons in Hz' as [->|Hz'].
      * exists v. split; [done|]. by left.
      * destruct (Hall z' Hz') as (v' & ? & ?). exists v'.
        split; [done|]. by right.
Qed.

Lemma getkey_pairs_fail {A} (item : record) (src dst : A -> string) it ex :
  mapM (fun z => match Dynamo.getkey item (src z) with
                 | inl ex => inl ex
                 | inr v => inr (dst z, v)
                 end) it = inl ex ->
  exists z, z ∈ it /\ item !! src z = None /\ ex = KeyError (src z).
Proof.
  induction it as [|z it IH]; intros H; simpl in H; [done|].
  unfold Dynamo.getkey at 1 in H.
  destruct (item !! src z) as [v|] eqn:Hv.
  - destruct (mapM _ it) as [ex'|ps'] eqn:Hps; [|done]. injection H as ->.
    destruct (IH eq_refl) as (z' & ? & ? & ?). exists z'.
    split; [by right|done].
  - injection H as <-. exists z. split; [by left|done].
Qed.

Lemma getkey_pairs_total {A} (item : record) (src dst : A -> string) it :
  (forall z, z ∈ it -> is_Some (item !! src z)) ->
  exists ps, mapM (fun z => match Dynamo.getkey item (src z) with
                 | inl ex => inl ex
                 | inr v => inr (dst z, v)
                 end) it = inr ps.
Proof.
  intros Hall.
  destruct (mapM _ it) as [ex|ps] eqn:H; [|by eexists].
  apply getkey_pairs_fail in H as (z & Hz & Hnone & _).
  destruct (Hall z Hz) as [v Hv]. congruence.
Qed.

(** X7: the attribute-value map built for a record from the bindings of
    an expression binds every placeholder to the record's value of its
    source column, and holds nothing else. *)
Theorem first_call_binds (es : string) (item vals : record) eav :
  Dynamo.eav_format (Dynamo.parse_expression es) = inr eav ->
  Dynamo.eav_of item eav = inr vals ->
  (forall src ph, (src, ph) ∈ eav ->
     is_Some (item !! src) /\ vals !! ph = item !! src) /\
  (forall ph, is_Some (vals !! ph) <-> ph ∈ eav.*2).
Proof.
  intros Hf Hv.
  assert (Hnd : NoDup eav.*2).
  { apply eav_format_zip in Hf as (srcs & -> & _).
    rewrite snd_zip_take. apply take_NoDup, placeholders_NoDup. }
  unfold Dynamo.eav_of in Hv.
  destruct (mapM _ eav) as [|ps] eqn:Hps; [done|]. injection Hv as <-.
  apply (getkey_pairs item fst snd) in Hps as [Hfst Hall].
  split.
  - intros src ph Hin. destruct (Hall _ Hin) as (v & Hsrc & Hp).
    simpl in *. rewrite Hsrc. split; [by eexists|].
    apply dict_of_pairs_lookup; [|done]. by rewrite Hfst.
  - intros ph. split.
    + intros [v Hv]. destruct (decide (ph ∈ eav.*2)) as [|Hn]; [done|].
      rewrite dict_of_pairs_lookup_None in Hv; [done|]. by rewrite Hfst.
    + intros Hin. apply dict_of_pairs_lookup_Some. by rewrite Hfst.
Qed.

(** *** An update that cannot start *)
Lemma update_first_record B data table ks es h eav r rows :
  df_rows data = r :: rows ->
  Dynamo.eav_format (Dynamo.parse_expression es) = inr eav ->
  let item := encoded <$> dict_of_pairs (zip (df_names data) r) in
  forall ex,
  match Dynamo.key_of item (Py.split "," ks) with
  | inl ex' => ex' = ex
  | inr _ => Dynamo.eav_of item eav = inl ex
  end ->
  Dynamo._update B data table (Some ks) (Some es) h
  = (Raise ex, h ++ [Log INFO "Starting update to DynamoDB"]).
Proof.
  intros Hrows Hf item ex Hex.
  unfold Dynamo._update.
  unfold log_method, log, emit, bind at 1 2 3, lift.
  rewrite mapM_encode. unfold to_dict. rewrite Hrows. simpl map.
  fold item. unfold ret at 1 2 3, bind at 1 2 3 4 5.
  rewrite Hf. unfold ret at 1. simpl for_.
  unfold bind at 1 2 3 4.
  destruct (Dynamo.key_of item (Py.split "," ks)) as [ex'|kk].
  - subst ex'. reflexivity.
  - unfold ret at 1. rewrite Hex. reflexivity.
Qed.

(** X8: when a key column or a source column of the expression is not a
    column of the frame, [_update] raises [KeyError] for such a column at
    the first record, before any [update_item] call. *)
Theorem update_missing_column B data table ks es h eav r rows k :
  df_rows data = r :: rows ->
  Dynamo.eav_format (Dynamo.parse_expression es) = inr eav ->
  k ∈ Py.split "," ks ++ eav.*1 ->
  k ∉ df_names data ->
  exists k',
    k' ∈ Py.split "," ks ++ eav.*1 /\
    dict_of_pairs (zip (df_names data) r) !! k' = None /\
    Dynamo._update B data table (Some ks) (Some es) h
    = (Raise (KeyError k'), h ++ [Log INFO "Starting update to DynamoDB"]).
Proof.
  intros Hrows Hf Hk Hnot.
  set (raw := dict_of_pairs (zip (df_names data) r)).
  set (item := encoded <$> raw).
  assert (Hraw : raw !! k = None).
  { apply dict_of_pairs_lookup_None. rewrite fst_zip_take.
    intros Hin. apply Hnot. apply elem_of_take in Hin as (i & Hi & _).
    eapply list_elem_of_lookup_2, Hi. }
  assert (Hnone : forall z, item !! z = None -> raw !! z = None).
  { intros z. unfold item. rewrite lookup_fmap. by destruct (raw !! z). }
  assert (Hitem : item !! k = None).
  { unfold item. by rewrite lookup_fmap, Hraw. }
  destruct (Dynamo.key_of item (Py.split "," ks)) as [ex|kk] eqn:Hkey.
  - pose proof Hkey as Hkey'. unfold Dynamo.key_of in Hkey.
    destruct (mapM _ (Py.split "," ks)) as [ex'|] eqn:Hm; [|done].
    injection Hkey as ->.
    apply (getkey_pairs_fail item (fun z => z) (fun z => z))
      in Hm as (z & Hz & Hz' & ->).
    exists z. split; [apply elem_of_app; by left|]. split; [by apply Hnone|].
    apply (update_first_record B data table ks es h eav r rows Hrows Hf).
    fold raw item. by rewrite Hkey'.
  - destruct (Dynamo.eav_of item eav) as [ex|vals] eqn:Heav.
    + unfold Dynamo.eav_of in Heav.
      destruct (mapM _ eav) as [ex'|] eqn:Hm; [|done]. injection Heav as ->.
      pose proof Hm as Hm'.
      apply (getkey_pairs_fail item fst snd) in Hm as (z & Hz & Hz' & ->).
      exists z.1. split.
      { apply elem_of_app. right. apply list_elem_of_fmap. by exists z. }
      split; [by apply Hnone|].
      apply (update_first_record B data table ks es h eav r rows Hrows Hf).
      fold raw item. rewrite Hkey. unfold Dynamo.eav_of. by rewrite Hm'.
    + exfalso. apply elem_of_app in Hk as [Hk|Hk].
      * unfold Dynamo.key_of in Hkey.
        destruct (mapM _ (Py.split "," ks)) as [|ps] eqn:Hm; [done|].
        apply (getkey_pairs item (fun z => z) (fun z => z)) in Hm as [_ Hall].
        destruct (Hall k Hk) as (v & Hv & _). congruence.
      * unfold Dynamo.eav_of in Heav.
        destruct (mapM _ eav) as [|ps] eqn:Hm; [done|].
        apply (getkey_pairs item fst snd) in Hm as [_ Hall].
        apply list_elem_of_fmap in Hk as (z & -> & Hz).
        destruct (Hall z Hz) as (v & Hv & _). congruence.
Qed.

Lemma split_chars_no_sep sep cs : forall cur,
  sep ∉ cs -> Py.split_chars sep cur cs = [rev cur ++ cs].
Proof.
  induction cs as [|c cs IH]; intros cur Hn; simpl.
  - by rewrite app_nil_r.
  - apply not_elem_of_cons in Hn as [Hc Hn].
    rewrite bool_decide_eq_false_2 by done.
    rewrite IH by done. simpl. by rewrite <- app_assoc.
Qed.

Lemma split_no_sep sep s :
  sep ∉ list_ascii_of_string s -> Py.split sep s = [s].
Proof.
  intros Hn. unfold Py.split. rewrite split_chars_no_sep by done.
  simpl. by rewrite string_of_list_ascii_of_string.
Qed.

Lemma eav_format_malformed es p :
  p ∈ Py.split "," es ->
  "="%char ∉ list_ascii_of_string p ->
  Dynamo.eav_format (Dynamo.parse_expression es) = inl IndexError.
Proof.
  intros Hp Hn. unfold Dynamo.eav_format, Dynamo.parse_expression.
  induction Hp as [p l|p q l Hp IH]; simpl.
  - by rewrite split_no_sep.
  - specialize (IH Hn). destruct (Py.split "=" q !! 1%nat); [|done].
    destruct (mapM _ (map (Py.split "=") l)) as [ex|]; [|done].
    by injection IH as ->.
Qed.

(** X9: when a pair of the expression has no [=], [_update] raises
    [IndexError] before any record is looked at or any call is sent. *)
Theorem update_malformed_expression B data table ks es h p :
  p ∈ Py.split "," es ->
  "="%char ∉ list_ascii_of_string p ->
  Dynamo._update B data table (Some ks) (Some es) h
  = (Raise IndexError, h ++ [Log INFO "Starting update to DynamoDB"]).
Proof.
  intros Hp Hn. unfold Dynamo._update.
  unfold log_method, log, emit, bind at 1 2 3, lift.
  rewrite mapM_encode. unfold ret at 1 2 3, bind at 1 2 3 4 5.
  by rewrite (eav_format_malformed es p Hp Hn).
Qed.

(** *** The store calls of a key-value write *)
Section WriteEvents.
Variable B : backend.

Lemma merge_loop_events items : forall h,
  exists new,
    (for_ items tt (fun item _ =>
          try_except
            (call (PutItem item) (fun h => bk_put_item B h item))
            (fun ex =>
               match message_of ex with
               | Some msg => emit (Print msg) ;; raise Exception
               | None => raise AttributeError
               end)) h).2 = h ++ new /\
    Forall (fun ev => write_event "merge" ev = true) new.
Proof.
  induction items as [|item rest IH]; intros h.
  - exists []. by rewrite app_nil_r.
  - simpl for_. unfold bind at 1, try_except at 1, call at 1.
    destruct (bk_put_item B h item) as [ex|[]].
    + destruct (message_of ex) as [msg|].
      * exists [PutItem item; Print msg]. split.
        { unfold bind, emit, raise. simpl. by rewrite <- app_assoc. }
        by repeat constructor.
      * exists [PutItem item]. split; [done|]. by repeat constructor.
    + destruct (IH (h ++ [PutItem item])) as (new & Hnew & Hall).
      exists (PutItem item :: new). split.
      * rewrite Hnew. by rewrite <- app_assoc.
      * by constructor.
Qed.

Lemma update_loop_events key u items : forall it h,
  exists new,
    (for_ items it (fun item it =>
       let* k := lift (Dynamo.key_of item key) in
       let* vals := lift (Dynamo.eav_of item it) in
       call (UpdateItem k u vals) (fun h => bk_update_item B h k u vals) ;;
       ret []) h).2 = h ++ new /\
    Forall (fun ev => write_event "update" ev = true) new.
Proof.
  induction items as [|item rest IH]; intros it h.
  - exists []. by rewrite app_nil_r.
  - simpl for_. run.
    destruct (Dynamo.key_of item key) as [ex|k].
    { exists []. by rewrite app_nil_r. }
    destruct (Dynamo.eav_of item it) as [ex|vals].
    { exists []. by rewrite app_nil_r. }
    cbv beta iota.
    destruct (bk_update_item B h k u vals) as [ex|[]].
    { exists [UpdateItem k u vals]. split; [done|]. by repeat constructor. }
    destruct (IH [] (h ++ [UpdateItem k u vals])) as (new & Hnew & Hall).
    exists (UpdateItem k u vals :: new). split.
    + unfold bind, lift, call, ret, raise in Hnew. rewrite Hnew.
      by rewrite <- app_assoc.
    + by constructor.
Qed.

End WriteEvents.

(** X10: whatever the store answers, a key-value write of strategy
    [merge] sends nothing but [put_item] calls, one of strategy [update]
    nothing but [update_item] calls, and any other strategy sends nothing at
    all. *)
Theorem write_store_calls B data table load_type kw h :
  exists new,
    (Dynamo.write B data table load_type kw h).2 = h ++ new /\
    Forall (fun ev => write_event load_type ev = true) new.
Proof.
  unfold Dynamo.write, Dynamo.connect.
  case_bool_decide as Hm; [subst load_type|].
  { unfold Dynamo._merge.
    unfold log_method, log, emit, bind at 1 2 3 4, lift.
    rewrite mapM_encode. unfold ret at 1. unfold bind at 1 2 3, with_.
    match goal with
    | |- context [for_ ?items tt ?f ?hh] =>
        assert (Hev : exists new, (for_ items tt f hh).2 = hh ++ new /\
                  Forall (fun ev => write_event "merge" ev = true) new)
          by apply (merge_loop_events B items hh);
        destruct (for_ items tt f hh) as [[[]| |] h']
    end; destruct Hev as (new & Hnew & Hall); simpl in Hnew; subst h'.
    - eexists. split.
      + unfold bind, ret. simpl. rewrite <- !app_assoc. reflexivity.
      + simpl. repeat constructor. apply Forall_app. split; [done|].
        by repeat constructor.
    - eexists. split; [simpl; rewrite <- !app_assoc; reflexivity|].
      simpl. repeat constructor. apply Forall_app. split; [done|].
      by repeat constructor.
    - eexists. split; [simpl; rewrite <- !app_assoc; reflexivity|].
      simpl. repeat constructor. apply Forall_app. split; [done|].
      by repeat constructor. }
  case_bool_decide as Ho.
  { exists [Table table; Log ERROR "Overwrite method currently not implemented"].
    split; [run; by rewrite <- app_assoc|]. by repeat constructor. }
  case_bool_decide as Hu; [subst load_type|].
  2:{ eexists. split; [run; rewrite <- app_assoc; reflexivity|].
      by repeat constructor. }
  destruct (negb (truthy (kw_expression kw)) && negb (truthy (kw_key kw))).
  { eexists. split; [run; rewrite <- !app_assoc; reflexivity|].
    by repeat constructor. }
  unfold Dynamo._update.
  unfold log_method, log, emit, bind at 1 2 3 4 5, lift, ret at 1.
  rewrite mapM_encode. unfold ret at 1, bind at 1 2 3.
  destruct (kw_key kw) as [ks|].
  2:{ eexists. split; [run; rewrite <- !app_assoc; reflexivity|].
      by repeat constructor. }
  unfold ret at 1, bind at 1 2 3 4.
  destruct (kw_expression kw) as [es|].
  2:{ eexists. split; [run; rewrite <- !app_assoc; reflexivity|].
      by repeat constructor. }
  unfold ret at 1.
  destruct (Dynamo.eav_format (Dynamo.parse_expression es)) as [ex|eav].
  { eexists. split; [run; rewrite <- !app_assoc; reflexivity|].
    by repeat constructor. }
  unfold ret at 1.
  match goal with
  | |- context [for_ ?items eav ?f ?hh] =>
      assert (Hev : exists new, (for_ items eav f hh).2 = hh ++ new /\
                Forall (fun ev => write_event "update" ev = true) new)
        by apply (update_loop_events B (Py.split "," ks)
                    ("set " +:+ Py.join ","
                       (Dynamo.ue (Dynamo.parse_expression es)))
                    items eav hh);
      destruct (for_ items eav f hh) as [[?| |] h']
  end; destruct Hev as (new & Hnew & Hall); simpl in Hnew; subst h'.
  - eexists. split.
    + unfold bind, ret. simpl. rewrite <- !app_assoc. reflexivity.
    + simpl. repeat constructor. apply Forall_app. split; [done|].
      by repeat constructor.
  - eexists. split; [simpl; rewrite <- !app_assoc; reflexivity|].
    simpl. repeat constructor. done.
  - eexists. split; [simpl; rewrite <- !app_assoc; reflexivity|].
    simpl. repeat constructor. done.
Qed.

(** *** The normal form of a record *)

(** X11: [_encode] raises [InvalidOperation] on every record that holds
    a [bool] cell; on every other record it returns, keeps the set of
    columns, leaves no [int], [float] or timestamp cell, and keeps every
    cell that is [None], a decimal, a string or of a kind the module does
    not know. *)
Theorem encode_normal_form (item : gmap string Raw.cell) :
  (forall k b, item !! k = Some (Raw.Bool b) ->
     Raw._encode item = inl InvalidOperation) /\
  (no_bool item ->
   exists item',
     Raw._encode item = inr item' /\
     dom item' =@{gset string} dom item /\
     map_Forall (fun _ c => is_kept c = true) item' /\
     forall k c, item !! k = Some c -> is_kept c = true ->
                 item' !! k = Some c).
Proof.
  split; [intros k b; apply Raw_encode_bool|].
  intros Hnb. exists (encoded_cell <$> item).
  split; [by apply Raw_encode_ok|]. split; [apply dom_fmap_L|]. split.
  - intros k c. rewrite lookup_fmap.
    destruct (item !! k) as [w|] eqn:Hk; [|done].
    intros [= <-]. apply encoded_cell_kept. by apply (Hnb k).
  - intros k c Hk Hc. rewrite lookup_fmap, Hk. simpl.
    by rewrite encoded_cell_fixed.
Qed.

(** *** Inserting a frame again *)
Lemma zip_with_last {A} (name : string) (names : list string) (new : A) :
  name ∉ names -> forall (l : list A) old,
  length l = length names ->
  zip_with (fun c (o : A) => if bool_decide (c = name) then new else o)
           (names ++ [name]) (l ++ [old])
  = l ++ [new].
Proof.
  induction names as [|c names IH]; intros Hn l old Hl.
  - destruct l; [|done]. simpl. by rewrite bool_decide_eq_true_2.
  - destruct l as [|x l]; [done|]. apply not_elem_of_cons in Hn as [Hc Hn].
    simpl. rewrite bool_decide_eq_false_2 by done. f_equal.
    apply IH; [done|]. simpl in Hl. lia.
Qed.

Lemma setitem_again name dt v1 v2 df :
  df_wf df -> name ∉ df_names df ->
  setitem name dt v2 (setitem name dt v1 df) = setitem name dt v2 df.
Proof.
  intros [Hnd Hrows] Hn. rewrite !(setitem_fresh name dt _ df) by done.
  unfold setitem, df_names, df_dtypes. simpl.
  rewrite !fmap_app. simpl. fold (df_names df) (df_dtypes df).
  rewrite bool_decide_eq_true_2 by (apply elem_of_app; right; by left).
  f_equal.
  - rewrite zip_with_last; [|done|unfold df_names, df_dtypes; by rewrite !length_fmap].
    unfold df_names, df_dtypes.
    rewrite zip_with_app by (by rewrite !length_fmap).
    by rewrite zip_fst_snd.
  - rewrite map_map. apply map_ext_in. intros r Hr.
    apply zip_with_last; [done|].
    rewrite Forall_forall in Hrows. rewrite df_names_length.
    apply Hrows. by apply list_elem_of_In.
Qed.

(** X17: [_insert] leaves the frame with the stamp column; inserting the
    frame it left once more keeps a single stamp column, whose value is the
    time of the later insert. *)
Theorem insert_again B data table table' h h' :
  df_wf data ->
  "insert_timestamp" ∉ df_names data ->
  let stamped t :=
    mkDataFrame (df_columns data ++ [("insert_timestamp", "|O")])
                (map (fun r => r ++ [VStr (Py.strftime t)]) (df_rows data)) in
  let data1 := stamped (bk_now B h) in
  (Mssql._insert B data table h).1 = Ret data1 /\
  (Redshift._insert B data table h).1 = Ret data1 /\
  (Mssql._insert B data1 table' h').1 = Ret (stamped (bk_now B h')) /\
  (Redshift._insert B data1 table' h').1 = Ret (stamped (bk_now B h')).
Proof.
  intros Hwf Hn stamped data1.
  assert (Hs : forall t, stamped t
               = setitem "insert_timestamp" "|O" (VStr (Py.strftime t)) data).
  { intros t. by rewrite setitem_fresh. }
  rewrite !Mssql_insert_run, !Redshift_insert_run. simpl.
  subst data1. rewrite !Hs, setitem_again by done. done.
Qed.

(** *** The relational stores: overwrite, connection, query text *)
(** X12: an overwrite on MSSQL sends [TRUNCATE TABLE] first; when the
    statement raises, the error is logged and the insert, the completion
    entry and the commit follow all the same. *)
Theorem overwrite_truncate_swallowed B data dbase kw h :
  truthy (kw_table kw) = true ->
  bk_connect B h dbase = inr tt ->
  (forall h', bk_commit B h' = inr tt) ->
  let table := default EmptyString (kw_table kw) in
  let h0 := h ++ [Connect dbase;
                  Log INFO ("Starting " +:+ quoted "overwrite"
                            +:+ " write to MSSQL")] in
  let h1 := h0 ++ Execute ("TRUNCATE TABLE " +:+ table)
               :: match bk_execute B h0 ("TRUNCATE TABLE " +:+ table) with
                  | inl _ => [Log ERROR ("Error truncating table: " +:+ table)]
                  | inr _ => []
                  end in
  let data' :=
    setitem "insert_timestamp" "|O" (VStr (Py.strftime (bk_now B h1))) data in
  let q := "INSERT INTO " +:+ table +:+ " (" +:+ Py.join "," (df_names data')
           +:+ ") VALUES (" +:+ Py.join "," (Mssql.options data') +:+ ")" in
  exists lvl msg,
    Mssql.write B data dbase "overwrite" kw h
    = (Ret data',
       h1 ++ [Log DEBUG ("Executing SQL Query: " +:+ q);
              ExecuteMany q (df_rows (getitem (df_names data') data'));
              Log lvl msg;
              Log INFO "MSSQL overwrite complete"; Commit; Exit; Exit]).
Proof.
  intros Ht Hc Hcommit table h0 h1 data' q.
  unfold Mssql.write. rewrite Ht. change (negb true) with false. cbv beta iota.
  rewrite (bool_decide_eq_false_2 ("overwrite" = "merge")) by done.
  rewrite (bool_decide_eq_false_2 ("overwrite" = "append")) by done.
  rewrite (bool_decide_eq_true_2 ("overwrite" = "overwrite")) by done.
  fold table. unfold Mssql.connect, with_, bind at 1, call at 1. rewrite Hc.
  unfold Mssql._overwrite, log_method, log, emit, bind at 1 2 3 4 5.
  rewrite <- app_assoc. simpl app at 1. fold h0.
  assert (Htr : Mssql._truncate B table h0 = (Ret tt, h1)).
  { unfold Mssql._truncate, try_except, call, log, emit. subst h1.
    destruct (bk_execute B h0 ("TRUNCATE TABLE " +:+ table)) as [ex|[]];
      [by rewrite <- app_assoc|done]. }
  rewrite Htr.
  rewrite (Mssql_insert_run B data table h1). fold data' q.
  destruct (bk_executemany B _ q _) as [e|[]]; eexists _, _;
    unfold bind, ret, call; rewrite Hcommit; by rewrite <- !app_assoc.
Qed.

(** X14: when the server refuses the connection, the relational reads and
    writes raise the exception of [connect] unchanged, nothing is sent
    after the attempt and no context is entered. *)
Theorem connect_failure B data dbase table load_type kw h ex :
  (forall h', bk_connect B h' dbase = inl ex) ->
  (truthy (kw_table kw) = true ->
   Mssql.write B data dbase load_type kw h = (Raise ex, h ++ [Connect dbase]))
  /\ Redshift.write B data dbase table load_type h
     = (Raise ex, h ++ [Connect dbase])
  /\ (truthy (kw_query kw) = true ->
      Mssql.read B dbase kw h
      = (Raise ex, h ++ [Log INFO "Starting read from MSSQL database";
                         Connect dbase])
      /\ Redshift.read B dbase kw h
      = (Raise ex, h ++ [Log INFO "Starting read from Redshift database";
                         Connect dbase])).
Proof.
  intros Hc. repeat split.
  - intros Ht. unfold Mssql.write. rewrite Ht.
    change (negb true) with false. cbv beta iota.
    unfold Mssql.connect, bind, call. by rewrite Hc.
  - unfold Redshift.write, Redshift.connect, bind, call. by rewrite Hc.
  - unfold Mssql.read, Mssql.connect. run. rewrite H, Hc.
    by rewrite <- !app_assoc.
  - unfold Redshift.read, Redshift.connect. run. rewrite H, Hc.
    by rewrite <- !app_assoc.
Qed.

(** X15: a relational read with neither a query nor a query file logs an
    error and raises [EnvironmentError] without opening a connection. *)
Theorem read_needs_query B dbase kw h :
  truthy (kw_query kw) = false ->
  truthy (kw_query_file kw) = false ->
  Mssql.read B dbase kw h
  = (Raise EnvironmentError,
     h ++ [Log INFO "Starting read from MSSQL database";
           Log ERROR "Need a query for database table"])
  /\ Redshift.read B dbase kw h
  = (Raise EnvironmentError,
     h ++ [Log INFO "Starting read from Redshift database";
           Log ERROR "Need a query for database table"]).
Proof.
  intros Hq Hf. split.
  - unfold Mssql.read. run. rewrite Hq, Hf. by rewrite <- !app_assoc.
  - unfold Redshift.read. run. rewrite Hq, Hf. by rewrite <- !app_assoc.
Qed.

(** X16: without an inline query the text of the query file is the query:
    a failure to open the file is raised before connecting, a refused
    connection after it, and a failing query leaves the connection context
    without the completion entry. *)
Theorem read_query_file B dbase kw h :
  truthy (kw_query kw) = false ->
  truthy (kw_query_file kw) = true ->
  let f := default EmptyString (kw_query_file kw) in
  let opened start := bk_open_file B (h ++ [Log INFO start]) f in
  let run start stop (answer : exn + string) :=
    match answer with
    | inl ex => (Raise ex, h ++ [Log INFO start; OpenFile f])
    | inr q =>
        let h1 := h ++ [Log INFO start; OpenFile f] in
        match bk_connect B h1 dbase with
        | inl ex => (Raise ex, h1 ++ [Connect dbase])
        | inr _ =>
            match bk_read_sql B (h1 ++ [Connect dbase]) q with
            | inl ex => (Raise ex, h1 ++ [Connect dbase; ReadSql q; Exit])
            | inr data =>
                (Ret data,
                 h1 ++ [Connect dbase; ReadSql q;
                        Log INFO ("MSSQL query produced "
                                  +:+ str_len (df_rows data) +:+ " results");
                        Exit; Log INFO stop])
            end
        end
    end in
  Mssql.read B dbase kw h
  = run "Starting read from MSSQL database" "MSSQL read complete"
        (opened "Starting read from MSSQL database")
  /\ Redshift.read B dbase kw h
  = run "Starting read from Redshift database" "Redshift read complete"
        (opened "Starting read from Redshift database").
Proof.
  intros Hq Hf f opened run. subst run opened. cbv beta. split.
  - unfold Mssql.read, Mssql.connect. run. rewrite Hq, Hf. fold f.
    destruct (bk_open_file B _ f) as [ex|q]; [by rewrite <- ?app_assoc|].
    rewrite <- ?app_assoc. simpl app.
    destruct (bk_connect B _ dbase) as [ex|[]]; [by rewrite <- ?app_assoc|].
    rewrite <- ?app_assoc. simpl app.
    destruct (bk_read_sql B _ q) as [ex|d]; by rewrite <- ?app_assoc.
  - unfold Redshift.read, Redshift.connect. run. rewrite Hq, Hf. fold f.
    destruct (bk_open_file B _ f) as [ex|q]; [by rewrite <- ?app_assoc|].
    rewrite <- ?app_assoc. simpl app.
    destruct (bk_connect B _ dbase) as [ex|[]]; [by rewrite <- ?app_assoc|].
    rewrite <- ?app_assoc. simpl app.
    destruct (bk_read_sql B _ q) as [ex|d]; by rewrite <- ?app_assoc.
Qed.

(** *** Runs on the stand-ins *)

(** A merge of the three orders. *)
Lemma merge_puts_every_row_witness :
  puts_of (Dynamo.write Fake.accept Fake.orders "t" "merge" no_kwargs []).2
  = [ {[ "id" := VDecimal (Py.DFinite false 1 0);
         "new_status" := VStr "open";
         "new_count" := VDecimal (Py.DFinite false 3 0) ]};
      {[ "id" := VDecimal (Py.DFinite false 2 0);
         "new_status" := VStr "paid";
         "new_count" := VDecimal (Py.DFinite false 5 0) ]};
      {[ "id" := VDecimal (Py.DFinite false 3 0);
         "new_status" := VStr "sent";
         "new_count" := VDecimal (Py.DFinite false 8 0) ]} ].
Proof.
  rewrite (merge_puts_every_row Fake.accept Fake.orders "t" no_kwargs []).
  - vm_compute. reflexivity.
  - intros h' item. reflexivity.
Defined.

(** A table of five items in three pages, read without a limit. *)
Lemma read_whole_table_witness :
  let run := Dynamo.read (Fake.paged Cases.small_pages) 2 "t" no_kwargs [] in
  run.1 = Ret (Fake.numbered 0 2 ++ Fake.numbered 2 2 ++ Fake.numbered 4 1)
  /\ length (List.filter is_scan run.2) = 3%nat.
Proof.
  intros run. subst run.
  rewrite (read_whole_table (Fake.paged Cases.small_pages) 2 "t"
    no_kwargs []
    (mkResponse (Fake.numbered 0 2) (Some (Fake.token 1)))
    [mkResponse (Fake.numbered 2 2) (Some (Fake.token 2));
     mkResponse (Fake.numbered 4 1) None] eq_refl).
  - split; vm_compute; reflexivity.
  - repeat split; try (intros; vm_compute; reflexivity); eauto.
  - simpl. lia.
  - vm_compute. discriminate.
Defined.

(** The third request fails. *)
Lemma read_scan_failure_witness :
  Dynamo.read (Cases.scan_breaks [Fake.numbered 0 2; Fake.numbered 2 2]
                 Fake.boom) 2 "t" no_kwargs []
  = (Raise Fake.boom,
     [Log INFO "Starting read from DynamoDB"; Table "t"; Scan None None;
      Scan (Some (Fake.token 1)) None; Scan (Some (Fake.token 2)) None]).
Proof.
  apply (read_scan_failure
           (Cases.scan_breaks [Fake.numbered 0 2; Fake.numbered 2 2] Fake.boom)
           2 "t" no_kwargs []
           [mkResponse (Fake.numbered 0 2) (Some (Fake.token 1));
            mkResponse (Fake.numbered 2 2) (Some (Fake.token 2))]
           Fake.boom eq_refl).
  - repeat split; try (intros; vm_compute; reflexivity); eauto.
  - vm_compute. discriminate.
  - simpl. lia.
Defined.

(** The same table read with [limit=0]. *)
Lemma read_limit_not_positive_witness :
  exists tr,
    Dynamo.read (Fake.paged Cases.small_pages) 0 "t" Cases.limit_0 []
    = (Ret (Fake.numbered 0 2), tr)
    /\ length (List.filter is_scan tr) = 1%nat.
Proof.
  pose proof (read_limit_not_positive (Fake.paged Cases.small_pages) 0 "t"
    Cases.limit_0 []
    (mkResponse (Fake.numbered 0 2) (Some (Fake.token 1)))
    [mkResponse (Fake.numbered 2 2) (Some (Fake.token 2));
     mkResponse (Fake.numbered 4 1) None] 0 eq_refl eq_refl) as H.
  eexists. split.
  - apply H.
    + lia.
    + vm_compute. reflexivity.
    + repeat split; try (intros; vm_compute; reflexivity); eauto.
  - vm_compute. reflexivity.
Defined.

(** An expression of twenty-seven pairs. *)
Lemma bindings_capacity_witness :
  length (Py.split "," Cases.wide_expression) = 27%nat /\
  length (Dynamo.ue (Dynamo.parse_expression Cases.wide_expression))
  = 26%nat /\
  exists eav,
    Dynamo.eav_format (Dynamo.parse_expression Cases.wide_expression)
    = inr eav /\ length eav = 26%nat.
Proof.
  destruct (bindings_capacity Cases.wide_expression) as (Hue & _ & _ & Heav).
  split; [vm_compute; reflexivity|]. split; [exact Hue|].
  eexists. split; [vm_compute; reflexivity|].
  refine (proj1 (Heav _ _)). vm_compute. reflexivity.
Defined.

(** The bindings of the first order. *)
Lemma first_call_binds_witness :
  let item : record :=
    {[ "id" := VInt 1; "new_status" := VStr "open"; "new_count" := VInt 3 ]} in
  exists vals,
    Dynamo.eav_of item [("new_status", ":a"); ("new_count", ":b")] = inr vals
    /\ vals !! ":a" = Some (VStr "open")
    /\ vals !! ":b" = Some (VInt 3)
    /\ vals !! ":c" = None.
Proof.
  intros item.
  destruct (Dynamo.eav_of item [("new_status", ":a"); ("new_count", ":b")])
    as [ex|vals] eqn:Hv; [vm_compute in Hv; discriminate|].
  destruct (first_call_binds "status=new_status,count=new_count" item vals
              [("new_status", ":a"); ("new_count", ":b")]) as [Hb Hdom].
  - vm_compute. reflexivity.
  - exact Hv.
  - exists vals. split; [reflexivity|].
    split; [rewrite (proj2 (Hb "new_status" ":a" ltac:(by left))); vm_compute; reflexivity|].
    split; [rewrite (proj2 (Hb "new_count" ":b" ltac:(right; by left))); vm_compute; reflexivity|].
    destruct (vals !! ":c") eqn:Hc; [|reflexivity].
    exfalso. assert (Hin : ":c" ∈ [":a"; ":b"]) by (apply Hdom; eauto).
    revert Hin. apply (bool_decide_unpack (":c" ∉ [":a"; ":b"])).
    vm_compute. exact I.
Defined.

(** An update keyed on a column the orders do not have. *)
Lemma update_missing_column_witness :
  exists k,
    Dynamo._update Fake.accept Fake.orders "t" (Some "id,order")
      (Some "status=new_status") []
    = (Raise (KeyError k), [Log INFO "Starting update to DynamoDB"]).
Proof.
  destruct (update_missing_column Fake.accept Fake.orders "t" "id,order"
              "status=new_status" [] [("new_status", ":a")]
              [VInt 1; VStr "open"; VInt 3]
              [[VInt 2; VStr "paid"; VInt 5]; [VInt 3; VStr "sent"; VInt 8]]
              "order") as (k & _ & _ & H).
  - reflexivity.
  - vm_compute. reflexivity.
  - apply (bool_decide_unpack (_ ∈ _)). vm_compute. exact I.
  - apply (bool_decide_unpack (_ ∉ _)). vm_compute. exact I.
  - exists k. exact H.
Defined.

(** An expression whose second pair has no [=]. *)
Lemma update_malformed_expression_witness :
  Dynamo._update Fake.accept Fake.orders "t" (Some "id")
    (Some "status=new_status,count") []
  = (Raise IndexError, [Log INFO "Starting update to DynamoDB"]).
Proof.
  apply (update_malformed_expression Fake.accept Fake.orders "t" "id"
           "status=new_status,count" [] "count").
  - apply (bool_decide_unpack (_ ∈ _)). vm_compute. exact I.
  - apply (bool_decide_unpack (_ ∉ _)). vm_compute. exact I.
Defined.

(** An overwrite whose [TRUNCATE] is rejected. *)
Lemma overwrite_truncate_swallowed_witness :
  exists d lvl msg,
    Mssql.write (Cases.no_truncate Fake.boom) Fake.prices "db" "overwrite"
      Fake.table_t []
    = (Ret d,
       [Connect "db";
        Log INFO ("Starting " +:+ quoted "overwrite" +:+ " write to MSSQL");
        Execute "TRUNCATE TABLE t";
        Log ERROR "Error truncating table: t";
        Log DEBUG "Executing SQL Query: INSERT INTO t (sku,price,insert_timestamp) VALUES (%s,%d,%s)";
        ExecuteMany "INSERT INTO t (sku,price,insert_timestamp) VALUES (%s,%d,%s)"
          [[VStr "a"; VFloat Fake.f19_99; VStr "2024-03-07 09:05:00"];
           [VStr "b"; VFloat Fake.f19_99; VStr "2024-03-07 09:05:00"]];
        Log lvl msg;
        Log INFO "MSSQL overwrite complete"; Commit; Exit; Exit]).
Proof.
  destruct (overwrite_truncate_swallowed (Cases.no_truncate Fake.boom)
              Fake.prices "db" Fake.table_t [] eq_refl eq_refl
              (fun _ => eq_refl)) as (lvl & msg & H).
  eexists _, lvl, msg. exact H.
Defined.

(** A server that is down. *)
Lemma connect_failure_witness :
  Mssql.write (Cases.offline Fake.boom) Fake.prices "db" "append"
    Fake.table_t []
  = (Raise Fake.boom, [Connect "db"])
  /\ Redshift.write (Cases.offline Fake.boom) Fake.prices "db" "t" "append" []
  = (Raise Fake.boom, [Connect "db"])
  /\ Mssql.read (Cases.offline Fake.boom) "db" Cases.inline_query []
  = (Raise Fake.boom,
     [Log INFO "Starting read from MSSQL database"; Connect "db"]).
Proof.
  destruct (connect_failure (Cases.offline Fake.boom) Fake.prices "db" "t"
              "append" Fake.table_t [] Fake.boom (fun _ => eq_refl))
    as (Hw & Hr & _).
  destruct (connect_failure (Cases.offline Fake.boom) Fake.prices "db" "t"
              "append" Cases.inline_query [] Fake.boom (fun _ => eq_refl))
    as (_ & _ & Hq).
  split; [exact (Hw eq_refl)|]. split; [exact Hr|].
  exact (proj1 (Hq eq_refl)).
Defined.

(** A read that only carries a limit. *)
Lemma read_needs_query_witness :
  (Mssql.read Fake.accept "db" Fake.limit_120 []).1 = Raise EnvironmentError
  /\ (Redshift.read Fake.accept "db" Fake.limit_120 []).1
     = Raise EnvironmentError.
Proof.
  destruct (read_needs_query Fake.accept "db" Fake.limit_120 [] eq_refl eq_refl)
    as [Hm Hr].
  split; [rewrite Hm|rewrite Hr]; reflexivity.
Defined.

(** A read whose query comes from a file. *)
Lemma read_query_file_witness :
  Mssql.read (Cases.with_file "SELECT sku FROM t" Fake.prices) "db"
    Cases.from_file []
  = (Ret Fake.prices,
     [Log INFO "Starting read from MSSQL database"; OpenFile "q.sql";
      Connect "db"; ReadSql "SELECT sku FROM t";
      Log INFO "MSSQL query produced 2 results"; Exit;
      Log INFO "MSSQL read complete"]).
Proof.
  destruct (read_query_file (Cases.with_file "SELECT sku FROM t" Fake.prices)
              "db" Cases.from_file [] eq_refl eq_refl) as [Hm _].
  exact Hm.
Defined.

(** A read by query type. *)
Lemma read_query_type_witness :
  Dynamo.read Fake.accept 0 "t" Cases.typed_query []
  = (Raise NotImplementedError,
     [Log INFO "Starting read from DynamoDB"; Table "t";
      Log ERROR "DynamoDB query currently not implemented"]).
Proof.
  exact (read_query_type Fake.accept 0 "t" Cases.typed_query [] eq_refl).
Defined.

(** A record with a [bool] cell, and one with a cell of unknown kind. *)
Lemma encode_normal_form_witness :
  Raw._encode {[ "paid" := Raw.Bool true; "sku" := Raw.Data (VStr "a") ]}
  = inl InvalidOperation /\
  exists item',
    Raw._encode {[ "sku" := Raw.Data (VStr "a"); "tags" := Raw.Other "[]";
                   "qty" := Raw.Data (VInt 3) ]} = inr item' /\
    item' !! "sku" = Some (Raw.Data (VStr "a")) /\
    item' !! "tags" = Some (Raw.Other "[]").
Proof.
  split.
  - apply (proj1 (encode_normal_form _) "paid" true). vm_compute. reflexivity.
  - destruct (proj2 (encode_normal_form
        {[ "sku" := Raw.Data (VStr "a"); "tags" := Raw.Other "[]";
           "qty" := Raw.Data (VInt 3) ]})) as (item' & He & _ & _ & Hfix).
    + apply (bool_decide_unpack (no_bool _)). vm_compute. exact I.
    + exists item'. split; [exact He|]. split.
      * apply Hfix; [|reflexivity]. vm_compute. reflexivity.
      * apply Hfix; [|reflexivity]. vm_compute. reflexivity.
Defined.

(** The price rows inserted twice at the same clock. *)
Lemma insert_again_witness :
  let once := mkDataFrame
    [("sku", "|O"); ("price", "<f8"); ("insert_timestamp", "|O")]
    [[VStr "a"; VFloat Fake.f19_99; VStr "2024-03-07 09:05:00"];
     [VStr "b"; VFloat Fake.f19_99; VStr "2024-03-07 09:05:00"]] in
  (Mssql._insert Fake.accept Fake.prices "t" []).1 = Ret once /\
  (Mssql._insert Fake.accept once "t" []).1 = Ret once.
Proof.
  intros once.
  destruct (insert_again Fake.accept Fake.prices "t" "t" [] [] prices_wf)
    as (H1 & _ & H2 & _).
  - apply (bool_decide_unpack (_ ∉ _)). vm_compute. exact I.
  - split; [exact H1|exact H2].
Defined.

(** An append commits after its insert. *)
Lemma commit_closes_load_witness :
  exists pre q items,
    (Mssql.write Fake.accept Fake.prices "db" "append" Fake.table_t []).2
    = [Connect "db"] ++ (pre ++ [Commit]) ++ [Exit; Exit] /\
    (Commit ∉ pre) /\ (ExecuteMany q items ∈ pre).
Proof.
  destruct (commit_closes_load Fake.accept Fake.prices "db" "append"
              Fake.table_t [] eq_refl eq_refl) as (new & Hrun & Hnew).
  rewrite bool_decide_eq_true_2 in Hnew by (by left).
  destruct Hnew as (pre & q & items & -> & Hpre & Hin).
  exists pre, q, items. split; [exact Hrun|]. split; [exact Hpre|exact Hin].
Defined.
